(** * store/serializers.py: owner attachment, flattened profiles, category trees

    A shallow embedding of [backend/store/serializers.py].  Python dicts are
    finite maps with string keys, exceptions are an error type, the database
    behind the Django ORM is an explicit store threaded through a state and
    error monad, and [transaction.atomic] is the combinator that restores
    the store when its body raises. *)

From Stdlib Require Import ZArith.
From stdpp Require Import base option list strings gmap fin_maps.

Set Warnings "-register-all".

Local Open Scope Z_scope.
Local Open Scope string_scope.

(** ** Values, exceptions and results *)

(** What a validated payload can hold: scalars, and references to model
    instances (a model name and a primary key). *)
Inductive value :=
  | VNone
  | VBool (b : bool)
  | VInt (z : Z)
  | VStr (s : string)
  | VRef (model : string) (pk : Z)
  | VAnonymousUser.

#[global] Instance value_eq_dec : EqDecision value.
Proof. solve_decision. Defined.

(** The exception classes the module raises or lets through.
    [AttributeError] also stands for Django's [RelatedObjectDoesNotExist],
    which is a subclass of it; [StorageError] is any failure of the storage
    layer (constraint violation, connectivity). *)
Inductive exn :=
  | ImproperlyConfigured (msg : string)
  | ValidationError (msg : string)
  | KeyError (key : string)
  | AttributeError (attr : string)
  | StorageError (msg : string).

#[global] Instance exn_eq_dec : EqDecision exn.
Proof. solve_decision. Defined.

Inductive result (A : Type) :=
  | Ok (a : A)
  | Raise (e : exn).
Arguments Ok {A} a.
Arguments Raise {A} e.

Definition is_validation_error (e : exn) : bool :=
  match e with ValidationError _ => true | _ => false end.

Definition is_configuration_error (e : exn) : bool :=
  match e with ImproperlyConfigured _ => true | _ => false end.

(** ** The store *)

Record Row := mkRow { row_pk : Z; row_fields : gmap string value }.

#[global] Instance Row_eq_dec : EqDecision Row.
Proof. solve_decision. Defined.

(** One table per model, keyed by the model's name. *)
Abbreviation DB := (gmap string (list Row)).

Definition rows_of (model : string) (db : DB) : list Row :=
  default [] (db !! model).

Definition next_pk (model : string) (db : DB) : Z :=
  1 + foldr (fun r acc => Z.max (row_pk r) acc) 0 (rows_of model db).

(** ** State and error monad

    A failing computation keeps the writes made before the failure: without
    a transaction Django commits every statement on its own. *)
Definition M (A : Type) : Type := DB -> result A * DB.

Definition ret {A} (a : A) : M A := fun db => (Ok a, db).

Definition raise {A} (e : exn) : M A := fun db => (Raise e, db).

Definition bind {A B} (m : M A) (k : A -> M B) : M B :=
  fun db =>
    match m db with
    | (Ok a, db') => k a db'
    | (Raise e, db') => (Raise e, db')
    end.

Definition lift {A} (r : result A) : M A := fun db => (r, db).

Notation "'do' x <- m ; k" := (bind m (fun x => k))
  (at level 10, x pattern, m at level 100, k at level 200).

(** [transaction.atomic]: commit when the body returns, roll back to the
    state at entry when it raises, and let the exception through. *)
Definition atomic {A} (body : M A) : M A :=
  fun db =>
    match body db with
    | (Ok a, db') => (Ok a, db')
    | (Raise e, _) => (Raise e, db)
    end.

(** ** Request context *)

(** [request.user]: [None], Django's [AnonymousUser], or a saved user.
    [is_authenticated] is a constant of the class: [False] on
    [AnonymousUser], [True] on every user model instance. *)
Inductive Actor :=
  | NoUser
  | AnonymousUser
  | User (pk : Z).

Definition truthy (a : Actor) : bool :=
  match a with NoUser => false | _ => true end.

Definition is_authenticated (a : Actor) : bool :=
  match a with User _ => true | _ => false end.

Definition actor_value (a : Actor) : value :=
  match a with
  | NoUser => VNone
  | AnonymousUser => VAnonymousUser
  | User pk => VRef "User" pk
  end.

Record Request := mkRequest { user : Actor }.

(** The serializer's [context] dict. *)
Abbreviation Context := (gmap string Request).

(** [d[key]] *)
Definition getitem {V} (d : gmap string V) (key : string) : result V :=
  match d !! key with
  | Some v => Ok v
  | None => Raise (KeyError key)
  end.

(** [d.update(other)] *)
Definition dict_update (d other : gmap string value) : gmap string value :=
  other ∪ d.

(** The profiles of user [u]: the rows of [StoreProfile] whose [user] column
    refers to [u]. *)
Definition profile_rows (u : Z) (db : DB) : list Row :=
  filter (fun r => row_fields r !! "user" = Some (VRef "User" u))
         (rows_of "StoreProfile" db).

(** [user.profile], the reverse accessor of the profile's [user] relation.
    [None] and [AnonymousUser] have no such attribute; on a user without a
    profile the accessor raises [RelatedObjectDoesNotExist]. *)
Definition getattr_profile (a : Actor) (db : DB) : result Row :=
  match a with
  | NoUser => Raise (AttributeError "profile")
  | AnonymousUser => Raise (AttributeError "profile")
  | User u =>
      match head (profile_rows u db) with
      | Some p => Ok p
      | None => Raise (AttributeError "profile")
      end
  end.

(** [hasattr(x, name)]: true unless the lookup raises [AttributeError]. *)
Definition hasattr {A} (r : result A) : bool :=
  match r with Raise (AttributeError _) => false | _ => true end.

(** [getattr(x, name, None)] *)
Definition getattr_default {A} (r : result A) : result (option A) :=
  match r with
  | Ok a => Ok (Some a)
  | Raise (AttributeError _) => Ok None
  | Raise e => Raise e
  end.

Definition profile_ref (p : Row) : value := VRef "StoreProfile" (row_pk p).

(** The profiles an actor owns; only a saved user can own one. *)
Definition actor_profiles (a : Actor) (db : DB) : list Row :=
  match a with
  | User u => profile_rows u db
  | _ => []
  end.

(** ** Serializer classes *)

(** The fields a serializer class declares in its body. *)
Inductive FieldDecl :=
  | SlugRelatedField (slug_field : string) (read_only : bool)
  | ReadOnlyField (source : string)
  | NestedSerializer (schema : string) (many read_only : bool)
  | SerializerMethodField
  | RecursiveField (many : bool).

(** The options of an inner [Meta] class.  [profile_field_name] is [None]
    on a class that does not set it; the other options default to empty. *)
Record MetaOptions := mkMeta {
  model : string;
  fields : list string;
  read_only_fields : list string;
  profile_field_name : option string;
  flatten_fields : list (string * list string);
  extra_kwargs : list (string * bool)
}.

Record SerializerClass := mkClass {
  Meta : option MetaOptions;
  declared_fields : list (string * FieldDecl);
  (** an overriding [get_profile_field_name], when the class defines one *)
  profile_field_name_override : option (Context -> result string)
}.

Record Serializer := mkSerializer {
  class_of : SerializerClass;
  context : Context
}.

(** ** SetOwnProfileMixin *)

Definition not_configured : string :=
  "must set Meta.profile_field_name or override get_profile_field_name()".

Definition SetOwnProfileMixin_get_profile_field_name (self : Serializer)
  : result string :=
  match Meta (class_of self) with
  | None => Raise (ImproperlyConfigured not_configured)
  | Some m =>
      match profile_field_name m with
      | Some name => Ok name
      | None => Raise (ImproperlyConfigured not_configured)
      end
  end.

(** Method lookup: the override of the class when there is one. *)
Definition get_profile_field_name (self : Serializer) : result string :=
  match profile_field_name_override (class_of self) with
  | Some f => f (context self)
  | None => SetOwnProfileMixin_get_profile_field_name self
  end.

(** [__init__]: builds the instance, then resolves the field name and drops
    the answer. *)
Definition SetOwnProfileMixin_init (cls : SerializerClass) (ctx : Context)
  : result Serializer :=
  let self := mkSerializer cls ctx in
  match get_profile_field_name self with
  | Ok _ => Ok self
  | Raise e => Raise e
  end.

(** The dict display evaluates its key before its value. *)
Definition get_profile_kwargs (self : Serializer) : M (gmap string value) :=
  do request <- lift (getitem (context self) "request");
  let user := user request in
  do name <- lift (get_profile_field_name self);
  do profile <- (fun db => (getattr_profile user db, db));
  ret {[ name := profile_ref profile ]}.

Definition SetOwnProfileMixin_create
    (super_create : Serializer -> gmap string value -> M Row)
    (self : Serializer) (validated_data : gmap string value) : M Row :=
  do kwargs <- get_profile_kwargs self;
  let validated_data := dict_update validated_data kwargs in
  super_create self validated_data.

(** ** ModelSerializer.create

    The framework's create hands the payload to the model's manager.  What
    the storage layer accepts (constraints, column types) is not decided in
    this module: [accepts] stands for it. *)
Definition objects_create (accepts : string -> gmap string value -> DB -> bool)
    (model : string) (data : gmap string value) : M Row :=
  fun db =>
    if accepts model data db then
      let r := mkRow (next_pk model db) data in
      (Ok r, <[model := (rows_of model db ++ [r])%list]> db)
    else (Raise (StorageError model), db).

Definition ModelSerializer_create
    (accepts : string -> gmap string value -> DB -> bool)
    (self : Serializer) (validated_data : gmap string value) : M Row :=
  match Meta (class_of self) with
  | Some m => objects_create accepts (model m) validated_data
  | None => raise (AttributeError "Meta")
  end.

(** ** ProductNestedSerializer *)

Definition ProductNestedSerializer_Meta : MetaOptions :=
  {| model := "Product";
     fields := ["id"; "category"; "category_name"; "seller"; "title"; "unit";
                "unit_price"; "quantity"; "created"; "modified"];
     read_only_fields := ["id"; "seller"];
     profile_field_name := Some "seller";
     flatten_fields := [];
     extra_kwargs := [] |}.

Definition ProductNestedSerializer : SerializerClass :=
  {| Meta := Some ProductNestedSerializer_Meta;
     declared_fields :=
       [("category", SlugRelatedField "slug" false);
        ("category_name", ReadOnlyField "category.name")];
     profile_field_name_override := None |}.

(** Method resolution: the mixin's create, whose [super().create] is the
    model serializer's. *)
Definition ProductNestedSerializer_create
    (accepts : string -> gmap string value -> DB -> bool)
    (self : Serializer) (validated_data : gmap string value) : M Row :=
  SetOwnProfileMixin_create (ModelSerializer_create accepts) self validated_data.

(** ** StoreProfileSerializer *)

Definition user_fields : list string := ["email"; "first_name"; "last_name"].

Definition StoreProfileSerializer_Meta : MetaOptions :=
  let fields :=
    (user_fields ++ ["id"; "is_self"; "phone"; "city"; "address";
                     "person_type"; "seller_type"; "products"])%list in
  {| model := "StoreProfile";
     fields := fields;
     read_only_fields := ["id"; "email"; "products"];
     profile_field_name := None;
     flatten_fields := [("user", user_fields)];
     extra_kwargs := map (fun k => (k, false)) fields |}.

Definition StoreProfileSerializer_declared : list (string * FieldDecl) :=
  [("user", NestedSerializer "UserSerializer" false false);
   ("products", NestedSerializer "ProductNestedSerializer" true false);
   ("is_self", SerializerMethodField)].

Definition StoreProfileSerializer : SerializerClass :=
  {| Meta := Some StoreProfileSerializer_Meta;
     declared_fields := StoreProfileSerializer_declared;
     profile_field_name_override := None |}.

(** [Model.__eq__] on two saved instances of one model compares primary
    keys; against [None] it is false. *)
Definition model_eq (a : Row) (b : option Row) : bool :=
  match b with
  | Some b => bool_decide (row_pk a = row_pk b)
  | None => false
  end.

(** [self.context.get('request')], then two [getattr]s with default
    [None]: of [user] on the request, of [profile] on the user. *)
Definition get_is_self (self : Serializer) (profile : Row) (db : DB)
  : result bool :=
  let request := context self !! "request" in
  let user :=
    match request with
    | Some r => user r
    | None => NoUser
    end in
  match getattr_default (getattr_profile user db) with
  | Ok me => Ok (model_eq profile me)
  | Raise e => Raise e
  end.

Definition already_has_profile : string := "user already has a StoreProfile!".

(** The guard of create: [hasattr(user, 'profile') and user.profile], a
    saved profile being truthy. *)
Definition reject_second_profile (user : Actor) : M unit :=
  fun db =>
    if truthy user && is_authenticated user then
      if hasattr (getattr_profile user db) then
        match getattr_profile user db with
        | Ok _ => (Raise (ValidationError already_has_profile), db)
        | Raise e => (Raise e, db)
        end
      else (Ok tt, db)
    else (Ok tt, db).

(** The body of create.  [_update_flattened_field] belongs to
    [FlatNestedSerializerMixin] and [super().create] is resolved through
    it; both are arguments here.  The first receives the two dicts and
    returns them as it left them. *)
Definition StoreProfileSerializer_create_body
    (_update_flattened_field :
       Serializer -> gmap string value -> gmap string value ->
       M (gmap string value * gmap string value))
    (super_create : Serializer -> gmap string value -> M Row)
    (self : Serializer) (validated_data : gmap string value) : M Row :=
  do request <- lift (getitem (context self) "request");
  let user := user request in
  do _ <- reject_second_profile user;
  let related_objects : gmap string value := {[ "user" := actor_value user ]} in
  do dicts <- _update_flattened_field self validated_data related_objects;
  let '(validated_data, related_objects) := dicts in
  let validated_data := dict_update validated_data related_objects in
  super_create self validated_data.

(** [@transaction.atomic def create]: the decorator wraps the whole body. *)
Definition StoreProfileSerializer_create
    (_update_flattened_field :
       Serializer -> gmap string value -> gmap string value ->
       M (gmap string value * gmap string value))
    (super_create : Serializer -> gmap string value -> M Row)
    (self : Serializer) (validated_data : gmap string value) : M Row :=
  atomic (StoreProfileSerializer_create_body _update_flattened_field
            super_create self validated_data).

(** ** Schema variants *)

(** [class Meta(StoreProfileSerializer.Meta)]: every option is inherited,
    the ones the subclass sets are replaced. *)
Definition StoreProfileCreateSerializer_Meta : MetaOptions :=
  let base := StoreProfileSerializer_Meta in
  {| model := model base;
     fields := filter (fun f => f <> "products") (fields base);
     read_only_fields := read_only_fields base;
     profile_field_name := profile_field_name base;
     flatten_fields := flatten_fields base;
     extra_kwargs :=
       map (fun k => (k, true))
           (filter (fun k => k ∉ read_only_fields base) (fields base)) |}.

Definition StoreProfileNestedSerializer_Meta : MetaOptions :=
  let base := StoreProfileSerializer_Meta in
  {| model := model base;
     fields := filter (fun f => f <> "products") (fields base);
     read_only_fields := read_only_fields base;
     profile_field_name := profile_field_name base;
     flatten_fields := flatten_fields base;
     extra_kwargs := extra_kwargs base |}.

(** [ProductListSerializer] declares no [Meta]: it has its parent's. *)
Definition ProductListSerializer_Meta : MetaOptions :=
  ProductNestedSerializer_Meta.

Definition ProductDetailSerializer_Meta : MetaOptions :=
  let base := ProductListSerializer_Meta in
  {| model := model base;
     fields := (fields base ++ ["description"])%list;
     read_only_fields := read_only_fields base;
     profile_field_name := profile_field_name base;
     flatten_fields := flatten_fields base;
     extra_kwargs := extra_kwargs base |}.

(** [extra_kwargs[f]['required']] *)
Definition required (m : MetaOptions) (f : string) : option bool :=
  snd <$> List.find (fun kv => bool_decide (fst kv = f)) (extra_kwargs m).

(** ** The flatten specification of a class *)

Definition group_names (spec : list (string * list string)) : list string :=
  concat (map snd spec).

Definition is_method_field (d : FieldDecl) : bool :=
  match d with SerializerMethodField => true | _ => false end.

(** The declared fields whose value is computed by a method of the
    serializer. *)
Definition computed_fields (decl : list (string * FieldDecl)) : list string :=
  map fst (filter (fun d => is_method_field (snd d)) decl).

(** The names [Meta.fields] lists for the parent itself: the tuple that the
    class appends to [user_fields]. *)
Definition StoreProfileSerializer_parent_fields : list string :=
  ["id"; "is_self"; "phone"; "city"; "address"; "person_type"; "seller_type";
   "products"].

(** The parent's own fields: of the names a class lists for the parent,
    those that no method of the serializer computes. *)
Definition own_fields (parent_fields : list string) (cls : SerializerClass)
  : list string :=
  filter (fun f => f ∉ computed_fields (declared_fields cls)) parent_fields.

(** The invariant of a flatten specification, on a class that lists
    [parent_fields] for the parent: the names of the groups are pairwise
    distinct, none of them is one of the parent's own fields, and groups
    and own fields together are the declared fields without the computed
    ones. *)
Definition flatten_invariant (parent_fields : list string)
    (cls : SerializerClass) : Prop :=
  match Meta cls with
  | Some m =>
      NoDup (group_names (flatten_fields m))
      ∧ (forall f, f ∈ group_names (flatten_fields m) ->
                   f ∉ own_fields parent_fields cls)
      ∧ (forall f, f ∈ (group_names (flatten_fields m)
                        ++ own_fields parent_fields cls)%list
                   <-> f ∈ fields m
                       ∧ f ∉ computed_fields (declared_fields cls))
  | None => False
  end.

(** ** FlatNestedSerializerMixin: splitting a flat payload *)

(** Modelled from the spec: [FlatNestedSerializerMixin] lives in
    main/serializers.py, which is not among the sources.  The write path
    splits the incoming flat payload into the parent's own fields and one
    sub-payload per flatten group, holding only that group's declared field
    names, removed from the parent payload. *)
Definition take_group (names : list string) (payload : gmap string value)
  : gmap string value * gmap string value :=
  (filter (fun kv => fst kv ∈ names) payload,
   filter (fun kv => fst kv ∉ names) payload).

(** Modelled from the spec: the split of [FlatNestedSerializerMixin], one
    group after the other in the order of the specification. *)
Fixpoint split_payload (spec : list (string * list string))
    (payload : gmap string value)
  : list (string * gmap string value) * gmap string value :=
  match spec with
  | [] => ([], payload)
  | (relation, names) :: spec' =>
      let '(sub, payload') := take_group names payload in
      let '(subs, own) := split_payload spec' payload' in
      ((relation, sub) :: subs, own)
  end.

(** Modelled from the spec: re-merging the sub-payloads of
    [FlatNestedSerializerMixin] with the parent's own fields, each field
    under its own name. *)
Definition merge_payload (subs : list (string * gmap string value))
    (own : gmap string value) : gmap string value :=
  foldr (fun g acc => snd g ∪ acc) own subs.

(** Modelled from the spec: saving one related entity of
    [FlatNestedSerializerMixin].  A relation that is already resolved is
    updated in place with the group's fields; one that is not is created.
    [related_model] names the model behind a relation. *)
Definition save_related
    (accepts : string -> gmap string value -> DB -> bool)
    (related_model : string -> string)
    (relation : string) (sub : gmap string value) (existing : option value)
  : M value :=
  match existing with
  | Some (VRef model pk) =>
      fun db =>
        if bool_decide (Exists (fun r => row_pk r = pk) (rows_of model db)) then
          (Ok (VRef model pk),
           <[model := map (fun r => if bool_decide (row_pk r = pk)
                                    then mkRow pk (sub ∪ row_fields r)
                                    else r) (rows_of model db)]> db)
        else (Raise (StorageError model), db)
  | _ =>
      do r <- objects_create accepts (related_model relation) sub;
      ret (VRef (related_model relation) (row_pk r))
  end.

(** Modelled from the spec: [_update_flattened_field] of
    [FlatNestedSerializerMixin]: for each group in order, take its fields
    out of the payload, save the related entity, and put the reference it
    resolves to under the relation's name. *)
Fixpoint update_flattened_field
    (accepts : string -> gmap string value -> DB -> bool)
    (related_model : string -> string)
    (spec : list (string * list string))
    (validated_data related_objects : gmap string value)
  : M (gmap string value * gmap string value) :=
  match spec with
  | [] => ret (validated_data, related_objects)
  | (relation, names) :: spec' =>
      let '(sub, validated_data) := take_group names validated_data in
      do ref <- save_related accepts related_model relation sub
                  (related_objects !! relation);
      update_flattened_field accepts related_model spec' validated_data
        (<[relation := ref]> related_objects)
  end.

(** Modelled from the spec: the method of [FlatNestedSerializerMixin] as
    the serializer calls it, on the flatten specification of its class. *)
Definition FlatNestedSerializerMixin_update_flattened_field
    (accepts : string -> gmap string value -> DB -> bool)
    (related_model : string -> string)
    (self : Serializer) (validated_data related_objects : gmap string value)
  : M (gmap string value * gmap string value) :=
  match Meta (class_of self) with
  | Some m =>
      update_flattened_field accepts related_model (flatten_fields m)
        validated_data related_objects
  | None => raise (AttributeError "Meta")
  end.

(** ** CategorySerializer *)

Record Category := mkCategory {
  cat_pk : Z;
  name : string;
  slug : string;
  parent : option Z
}.

#[global] Instance Category_eq_dec : EqDecision Category.
Proof. solve_decision. Defined.

(** [category.children]: the reverse of the [parent] relation. *)
Definition children_of (cats : list Category) (c : Category) : list Category :=
  filter (fun ch => parent ch = Some (cat_pk c)) cats.

Inductive json :=
  | JNull
  | JStr (s : string)
  | JList (items : list json)
  | JObj (members : list (string * json)).

Definition CategorySerializer_Meta_fields : list string :=
  ["name"; "slug"; "children"].

(** [to_representation]: the declared fields in order; [children] is a
    [RecursiveField(many=True)], the same serializer on every child.  The
    recursion follows the table, so the model counts its depth down. *)
Fixpoint CategorySerializer_to_representation (fuel : nat)
    (cats : list Category) (c : Category) : option json :=
  match fuel with
  | O => None
  | S fuel =>
      children ← mapM (CategorySerializer_to_representation fuel cats)
                      (children_of cats c);
      Some (JObj [("name", JStr (name c));
                  ("slug", JStr (slug c));
                  ("children", JList children)])
  end.

(** The tree a category unfolds to in the table. *)
Inductive ctree := CNode (c : Category) (subtrees : list ctree).

Inductive unfolds (cats : list Category) : Category -> ctree -> Prop :=
  | unfolds_node c ts :
      Forall2 (unfolds cats) (children_of cats c) ts ->
      unfolds cats c (CNode c ts).

Fixpoint tree_size (t : ctree) : nat :=
  match t with
  | CNode _ ts => S (foldr (fun t acc => (tree_size t + acc)%nat) O ts)
  end.

Fixpoint tree_depth (t : ctree) : nat :=
  match t with
  | CNode _ ts => S (foldr (fun t acc => Nat.max (tree_depth t) acc) O ts)
  end.

Fixpoint render (t : ctree) : json :=
  match t with
  | CNode c ts =>
      JObj [("name", JStr (name c));
            ("slug", JStr (slug c));
            ("children", JList (map render ts))]
  end.

Fixpoint json_nodes (j : json) : nat :=
  match j with
  | JObj members =>
      S (foldr (fun m acc => (json_nodes (snd m) + acc)%nat) O members)
  | JList items => foldr (fun j acc => (json_nodes j + acc)%nat) O items
  | _ => O
  end.

(** A serialized category: exactly the three declared keys, in order,
    with serialized categories below. *)
Inductive category_shape : json -> Prop :=
  | shape_node n s items :
      Forall category_shape items ->
      category_shape (JObj [("name", JStr n); ("slug", JStr s);
                            ("children", JList items)]).

Definition keys_of (j : json) : list string :=
  match j with
  | JObj members => map fst members
  | _ => []
  end.

(** One step down the tree: [ch] is a child of [c]. *)
Definition has_child (cats : list Category) (c ch : Category) : Prop :=
  ch ∈ children_of cats c.

(** No category is its own descendant. *)
Definition acyclic (cats : list Category) : Prop :=
  Irreflexive (tc (has_child cats)).

(** A labelling that puts every category strictly below its parent. *)
Definition ranked (rank : Z -> nat) (cats : list Category) : Prop :=
  Forall (fun ch => match parent ch with
                    | Some p => (rank (cat_pk ch) < rank p)%nat
                    | None => True
                    end) cats.

(** ** Sample data

    A store with one user (7) who owns profile 3, and another profile (99)
    that belongs to user 8. *)
Definition accept_all (_ : string) (_ : gmap string value) (_ : DB) : bool :=
  true.

Definition sample_db : DB :=
  {[ "User" := [mkRow 7 {[ "email" := VStr "a@x.org" ]};
                mkRow 8 {[ "email" := VStr "b@x.org" ]};
                mkRow 9 {[ "email" := VStr "c@x.org" ]}];
     "StoreProfile" := [mkRow 3 {[ "user" := VRef "User" 7 ]};
                        mkRow 99 {[ "user" := VRef "User" 8 ]}] ]}.

Definition context_of (a : Actor) : Context := {[ "request" := mkRequest a ]}.

Definition product_payload : gmap string value :=
  {[ "title" := VStr "carrots"; "seller" := VRef "StoreProfile" 99 ]}.


(** A storage layer that refuses every new profile, the relation of a
    profile to its user, and a flat profile payload. *)
Definition refuse_profiles (model : string) (_ : gmap string value) (_ : DB)
  : bool :=
  negb (bool_decide (model = "StoreProfile")).

Definition sample_related_model (relation : string) : string :=
  if bool_decide (relation = "user") then "User" else relation.

Definition profile_payload : gmap string value :=
  {[ "email" := VStr "new@x.org"; "first_name" := VStr "Ada";
     "phone" := VStr "555"; "city" := VStr "Oslo" ]}.

Definition sample_db_user_9_updated : DB :=
  <["User" := [mkRow 7 {[ "email" := VStr "a@x.org" ]};
               mkRow 8 {[ "email" := VStr "b@x.org" ]};
               mkRow 9 {[ "email" := VStr "new@x.org";
                          "first_name" := VStr "Ada" ]}]]> sample_db.


(** A small category table, and the complete binary tree of depth 5 with
    its 31 rows numbered like a heap. *)
Definition sample_cats : list Category :=
  [mkCategory 1 "Vegetables" "vegetables" None;
   mkCategory 2 "Roots" "roots" (Some 1);
   mkCategory 3 "Leaves" "leaves" (Some 1);
   mkCategory 4 "Carrots" "carrots" (Some 2);
   mkCategory 5 "Fruit" "fruit" None].

Definition binary_cats : list Category :=
  map (fun k : nat =>
         mkCategory (Z.of_nat k) "node" "node"
           (if Nat.eqb k 1 then None else Some (Z.of_nat (Nat.div k 2))))
      (seq 1 31).

Definition heap_rank (pk : Z) : nat := Z.to_nat (64 - pk).


(** Two rows that are each other's parent. *)
Definition cyclic_cats : list Category :=
  [mkCategory 1 "a" "a" (Some 2); mkCategory 2 "b" "b" (Some 1)].


(** A class whose flatten group borrows a name the class does not declare. *)
Definition misdeclared_class : SerializerClass :=
  {| Meta := Some {| model := "StoreProfile";
                     fields := ["email"; "phone"];
                     read_only_fields := [];
                     profile_field_name := None;
                     flatten_fields := [("user", ["email"; "nickname"])];
                     extra_kwargs := [] |};
     declared_fields := [];
     profile_field_name_override := None |}.

(** A class that lists a borrowed name, phone, again for the parent. *)
Definition overlapping_parent_fields : list string := ["id"; "phone"; "city"].

Definition overlapping_class : SerializerClass :=
  {| Meta := Some {| model := "StoreProfile";
                     fields := ["email"; "phone"; "id"; "phone"; "city"];
                     read_only_fields := [];
                     profile_field_name := None;
                     flatten_fields := [("user", ["email"; "phone"])];
                     extra_kwargs := [] |};
     declared_fields := [];
     profile_field_name_override := None |}.

(** A class whose flatten group borrows the computed field. *)
Definition computed_borrowed_class : SerializerClass :=
  {| Meta := Some {| model := "StoreProfile";
                     fields := ["email"; "is_self"; "id"];
                     read_only_fields := [];
                     profile_field_name := None;
                     flatten_fields := [("user", ["email"; "is_self"])];
                     extra_kwargs := [] |};
     declared_fields := [("is_self", SerializerMethodField)];
     profile_field_name_override := None |}.



(** ** ProductListSerializer, ProductDetailSerializer

    Subclasses keep the declared fields of their parents; the list variant
    adds a read-only nested [seller].  Neither overrides [create]. *)
Definition ProductListSerializer : SerializerClass :=
  {| Meta := Some ProductListSerializer_Meta;
     declared_fields :=
       (declared_fields ProductNestedSerializer
        ++ [("seller", NestedSerializer "StoreProfileNestedSerializer" false true)])%list;
     profile_field_name_override := None |}.

Definition ProductDetailSerializer : SerializerClass :=
  {| Meta := Some ProductDetailSerializer_Meta;
     declared_fields := declared_fields ProductListSerializer;
     profile_field_name_override := None |}.

(** ** The category field of a product

    [SlugRelatedField('slug', queryset=Category.objects.all())]: a category
    is written as its slug and read back with [queryset.get(slug=...)].  No
    match is the field's validation error; several matches are the
    manager's [MultipleObjectsReturned], which the field does not catch. *)
Definition category_to_representation (c : Category) : json := JStr (slug c).

Definition category_to_internal_value (cats : list Category) (data : string)
  : result Category :=
  match filter (fun c => slug c = data) cats with
  | [] => Raise (ValidationError "does_not_exist")
  | [c] => Ok c
  | _ => Raise (StorageError "MultipleObjectsReturned")
  end.

(** ** CategoryFlatSerializer *)

(** [category.parent]: the row the [parent] column refers to. *)
Definition category_parent (cats : list Category) (c : Category)
  : option Category :=
  match parent c with
  | Some q => head (filter (fun r => cat_pk r = q) cats)
  | None => None
  end.

(** [parent = SlugRelatedField('slug', read_only=True)]: the parent's slug,
    and null when there is no parent to read. *)
Definition CategoryFlatSerializer_to_representation (cats : list Category)
    (c : Category) : json :=
  JObj [("name", JStr (name c));
        ("slug", JStr (slug c));
        ("parent", match category_parent cats c with
                   | Some p => JStr (slug p)
                   | None => JNull
                   end)].

(** [j[key]] on a serialized object. *)
Definition json_get (key : string) (j : json) : option json :=
  match j with
  | JObj members =>
      snd <$> List.find (fun kv => bool_decide (fst kv = key)) members
  | _ => None
  end.

(** The categories of a tree, parents before children. *)
Fixpoint tree_nodes (t : ctree) : list Category :=
  match t with
  | CNode c ts => c :: concat (map tree_nodes ts)
  end.

(** A class that names its owner field by overriding the resolver. *)
Definition override_class : SerializerClass :=
  {| Meta := None;
     declared_fields := [];
     profile_field_name_override := Some (fun _ => Ok "owner") |}.

(** A helper that leaves both dicts as they are, and a create that writes
    nothing and echoes the payload. *)
Definition keep_dicts (_ : Serializer) (validated_data related_objects : gmap string value)
  : M (gmap string value * gmap string value) :=
  ret (validated_data, related_objects).

Definition echo_create (_ : Serializer) (validated_data : gmap string value)
  : M Row :=
  ret (mkRow 0 validated_data).


#[global] Instance result_eq_dec {A} `{EqDecision A} : EqDecision (result A).
Proof. solve_decision. Defined.

(** ** CategorySerializer under the interpreter's recursion limit *)

(** CPython's default recursion limit, [sys.getrecursionlimit()]; nothing
    in the module changes it. *)
Definition recursion_limit : nat := 1000.

(** The levels of a tree that fit under the limit, when serializing one
    level takes [frames] stack frames of the framework and the caller
    already uses [base] frames. *)
Definition levels_under_limit (frames base : nat) : nat :=
  Nat.div (recursion_limit - base) frames.

(** [CategorySerializer(category).data] as the interpreter runs it: the
    recursion has the levels that fit under the limit, and running out of
    them is [RecursionError], here [None]. *)
Definition CategorySerializer_data (frames base : nat)
    (cats : list Category) (c : Category) : option json :=
  CategorySerializer_to_representation (levels_under_limit frames base) cats c.

(** A chain of 1001 categories, each the only child of the one before. *)
Definition chain_cats : list Category :=
  map (fun k : nat =>
         mkCategory (Z.of_nat k) "node" "node"
           (if Nat.eqb k 1 then None else Some (Z.of_nat (k - 1))))
      (seq 1 1001).

Definition chain_rank (pk : Z) : nat := Z.to_nat (2000 - pk).


(** [j['children']] on a serialized category. *)
Definition json_children (j : json) : list json :=
  match json_get "children" j with
  | Some (JList items) => items
  | _ => []
  end.

(** * Properties *)

(** ** Monad laws used below *)

Lemma bind_lift_ok {A B} (a : A) (k : A -> M B) db :
  bind (lift (Ok a)) k db = k a db.
Proof. reflexivity. Qed.

Lemma atomic_raise_restores {A} (body : M A) db e db' :
  atomic body db = (Raise e, db') -> db' = db.
Proof.
  unfold atomic. destruct (body db) as [[a|e'] db'']; intros H; congruence.
Qed.

Lemma atomic_ok {A} (body : M A) db a db' :
  body db = (Ok a, db') -> atomic body db = (Ok a, db').
Proof. unfold atomic. intros ->. reflexivity. Qed.

(** ** The accessor [user.profile] *)

Lemma getattr_profile_ok a db p :
  getattr_profile a db = Ok p ->
  exists u, a = User u /\ p ∈ profile_rows u db.
Proof.
  destruct a as [| |u]; simpl; try discriminate.
  destruct (profile_rows u db) as [|q rows] eqn:E; simpl; [discriminate|].
  intros [= ->]. exists u. split; [reflexivity|]. rewrite E. left.
Qed.

Lemma getattr_profile_none a db :
  actor_profiles a db = [] ->
  getattr_profile a db = Raise (AttributeError "profile").
Proof.
  destruct a as [| |u]; simpl; try reflexivity. intros ->. reflexivity.
Qed.

Lemma getattr_profile_some a db p rows :
  actor_profiles a db = p :: rows -> getattr_profile a db = Ok p.
Proof.
  destruct a as [| |u]; simpl; try discriminate. intros ->. reflexivity.
Qed.

(** ** SetOwnProfileMixin *)

(** C5: a class that uses the mixin, declares no [Meta.profile_field_name]
    (for want of a [Meta] or of the option) and does not override the
    resolver cannot be constructed: [__init__] raises
    [ImproperlyConfigured] whatever the context, and that exception is not
    a validation error. *)
Theorem C5_undeclared_field_name_fails_at_construction
    (cls : SerializerClass) (ctx : Context) :
  profile_field_name_override cls = None ->
  Meta cls ≫= profile_field_name = None ->
  SetOwnProfileMixin_init cls ctx = Raise (ImproperlyConfigured not_configured)
  /\ is_configuration_error (ImproperlyConfigured not_configured) = true
  /\ is_validation_error (ImproperlyConfigured not_configured) = false.
Proof.
  intros Hover Hmeta. split; [|split; reflexivity].
  unfold SetOwnProfileMixin_init, get_profile_field_name. simpl. rewrite Hover.
  unfold SetOwnProfileMixin_get_profile_field_name. simpl.
  destruct (Meta cls) as [m|]; simpl in *; [|reflexivity].
  rewrite Hmeta. reflexivity.
Qed.

Lemma C5_witness :
  SetOwnProfileMixin_init (mkClass None [] None) ∅
    = Raise (ImproperlyConfigured not_configured)
  /\ is_configuration_error (ImproperlyConfigured not_configured) = true
  /\ is_validation_error (ImproperlyConfigured not_configured) = false.
Proof.
  apply (C5_undeclared_field_name_fails_at_construction (mkClass None [] None) ∅);
    reflexivity.
Defined.

Example ProductNestedSerializer_constructs ctx :
  SetOwnProfileMixin_init ProductNestedSerializer ctx
  = Ok (mkSerializer ProductNestedSerializer ctx).
Proof. reflexivity. Qed.

Lemma init_ok_inv cls ctx self :
  SetOwnProfileMixin_init cls ctx = Ok self ->
  self = mkSerializer cls ctx /\ exists name, get_profile_field_name self = Ok name.
Proof.
  unfold SetOwnProfileMixin_init.
  destruct (get_profile_field_name (mkSerializer cls ctx)) as [name|e] eqn:E;
    intros [= <-]. split; [reflexivity|]. exists name. exact E.
Qed.

Lemma get_profile_kwargs_ok self request name p db :
  context self !! "request" = Some request ->
  get_profile_field_name self = Ok name ->
  getattr_profile (user request) db = Ok p ->
  get_profile_kwargs self db = (Ok {[ name := profile_ref p ]}, db).
Proof.
  intros Hreq Hname Hp. unfold get_profile_kwargs, getitem.
  rewrite Hreq, bind_lift_ok, Hname, bind_lift_ok.
  unfold bind. rewrite Hp. reflexivity.
Qed.

(** The payload the mixin delegates: the client's, with the owner field
    overwritten. *)
Lemma SetOwnProfileMixin_create_delegates super_create self request name p
    validated_data db :
  context self !! "request" = Some request ->
  get_profile_field_name self = Ok name ->
  getattr_profile (user request) db = Ok p ->
  SetOwnProfileMixin_create super_create self validated_data db
  = super_create self (<[name := profile_ref p]> validated_data) db.
Proof.
  intros Hreq Hname Hp. unfold SetOwnProfileMixin_create, bind.
  rewrite (get_profile_kwargs_ok self request name p db Hreq Hname Hp).
  unfold dict_update. rewrite <- insert_union_singleton_l. reflexivity.
Qed.

Lemma objects_create_ok accepts model data db r db' :
  objects_create accepts model data db = (Ok r, db') ->
  row_fields r = data /\ r ∈ rows_of model db'.
Proof.
  unfold objects_create. destruct (accepts model data db); [|discriminate].
  intros [= <- <-]. split; [reflexivity|].
  unfold rows_of at 1. rewrite lookup_insert_eq. simpl.
  apply elem_of_app. right. left.
Qed.

(** C1: creating a product through [ProductNestedSerializer] for an actor
    who owns profile [p] is persisting the payload with ['seller'] set to
    [p], whatever the payload held under ['seller']: the row that is
    returned and stored has [p] as its seller, and the row is stored
    whenever the storage layer accepts it. *)
Theorem C1_owner_authority
    (accepts : string -> gmap string value -> DB -> bool)
    (ctx : Context) (validated_data : gmap string value) (db : DB)
    (request : Request) (p : Row) (rows : list Row) :
  ctx !! "request" = Some request ->
  actor_profiles (user request) db = p :: rows ->
  ProductNestedSerializer_create accepts
    (mkSerializer ProductNestedSerializer ctx) validated_data db
  = objects_create accepts "Product"
      (<["seller" := profile_ref p]> validated_data) db
  /\ (forall r db',
        ProductNestedSerializer_create accepts
          (mkSerializer ProductNestedSerializer ctx) validated_data db
        = (Ok r, db') ->
        row_fields r !! "seller" = Some (profile_ref p)
        /\ r ∈ rows_of "Product" db')
  /\ (accepts "Product" (<["seller" := profile_ref p]> validated_data) db = true ->
      exists r db',
        ProductNestedSerializer_create accepts
          (mkSerializer ProductNestedSerializer ctx) validated_data db
        = (Ok r, db')).
Proof.
  intros Hreq Hp. apply getattr_profile_some in Hp.
  assert (Heq : ProductNestedSerializer_create accepts
            (mkSerializer ProductNestedSerializer ctx) validated_data db
          = objects_create accepts "Product"
              (<["seller" := profile_ref p]> validated_data) db).
  { unfold ProductNestedSerializer_create.
    rewrite (SetOwnProfileMixin_create_delegates _ _ request "seller" p);
      [reflexivity| exact Hreq | reflexivity | exact Hp]. }
  split; [exact Heq|]. rewrite Heq. split.
  - intros r db' Hc. apply objects_create_ok in Hc as [Hf Hin].
    split; [|exact Hin]. rewrite Hf. apply lookup_insert_eq.
  - intros Hacc. unfold objects_create. rewrite Hacc. eauto.
Qed.

Lemma C1_witness :
  ProductNestedSerializer_create accept_all
    (mkSerializer ProductNestedSerializer (context_of (User 7)))
    product_payload sample_db
  = objects_create accept_all "Product"
      (<["seller" := VRef "StoreProfile" 3]> product_payload) sample_db.
Proof.
  apply (C1_owner_authority accept_all (context_of (User 7)) product_payload
           sample_db (mkRequest (User 7))
           (mkRow 3 {[ "user" := VRef "User" 7 ]}) []);
    reflexivity.
Defined.

Example product_create_sample :
  ProductNestedSerializer_create accept_all
    (mkSerializer ProductNestedSerializer (context_of (User 7)))
    product_payload sample_db
  = (Ok (mkRow 1 {[ "title" := VStr "carrots";
                    "seller" := VRef "StoreProfile" 3 ]}),
     <["Product" := [mkRow 1 {[ "title" := VStr "carrots";
                                "seller" := VRef "StoreProfile" 3 ]}]]>
       sample_db).
Proof. vm_compute. reflexivity. Qed.

(** C10: on a serializer that was constructed, the mixin's create raises
    [KeyError] when the context has no ['request'], and [AttributeError]
    when the request's user has no profile (no user, [AnonymousUser], or a
    user without a profile row).  Neither is a validation error or a
    configuration error; nothing is delegated and nothing is written. *)
Theorem C10_owner_attachment_needs_actor_with_profile
    (super_create : Serializer -> gmap string value -> M Row)
    (cls : SerializerClass) (ctx : Context) (self : Serializer)
    (validated_data : gmap string value) (db : DB) :
  SetOwnProfileMixin_init cls ctx = Ok self ->
  (ctx !! "request" = None ->
   SetOwnProfileMixin_create super_create self validated_data db
   = (Raise (KeyError "request"), db))
  /\ (forall request,
        ctx !! "request" = Some request ->
        actor_profiles (user request) db = [] ->
        SetOwnProfileMixin_create super_create self validated_data db
        = (Raise (AttributeError "profile"), db))
  /\ is_validation_error (KeyError "request") = false
  /\ is_configuration_error (KeyError "request") = false
  /\ is_validation_error (AttributeError "profile") = false
  /\ is_configuration_error (AttributeError "profile") = false.
Proof.
  intros Hinit. apply init_ok_inv in Hinit as [Hself [name Hname]].
  assert (Hctx : context self = ctx) by (rewrite Hself; reflexivity).
  rewrite <- Hctx. clear Hself Hctx.
  split; [|split; [|repeat split]].
  - intros Hreq. unfold SetOwnProfileMixin_create, get_profile_kwargs, getitem.
    rewrite Hreq. reflexivity.
  - intros request Hreq Hnone.
    unfold SetOwnProfileMixin_create, get_profile_kwargs, getitem.
    rewrite Hreq, Hname. unfold bind, lift.
    rewrite (getattr_profile_none _ _ Hnone). reflexivity.
Qed.

Lemma C10_witness :
  SetOwnProfileMixin_create (ModelSerializer_create accept_all)
    (mkSerializer ProductNestedSerializer (context_of (User 9)))
    product_payload sample_db
  = (Raise (AttributeError "profile"), sample_db).
Proof.
  refine (proj1 (proj2 (C10_owner_attachment_needs_actor_with_profile
            (ModelSerializer_create accept_all) ProductNestedSerializer
            (context_of (User 9)) _ product_payload sample_db _))
            (mkRequest (User 9)) _ _); reflexivity.
Defined.

Example C10_no_request :
  SetOwnProfileMixin_create (ModelSerializer_create accept_all)
    (mkSerializer ProductNestedSerializer ∅) product_payload sample_db
  = (Raise (KeyError "request"), sample_db).
Proof. reflexivity. Qed.

Example C10_anonymous :
  SetOwnProfileMixin_create (ModelSerializer_create accept_all)
    (mkSerializer ProductNestedSerializer (context_of AnonymousUser))
    product_payload sample_db
  = (Raise (AttributeError "profile"), sample_db).
Proof. reflexivity. Qed.

(** ** StoreProfileSerializer.get_is_self *)

Lemma model_eq_true a b :
  model_eq a b = true <-> exists me, b = Some me /\ row_pk me = row_pk a.
Proof.
  destruct b as [me|]; simpl.
  - rewrite bool_decide_eq_true. split.
    + intros H. exists me. auto.
    + intros [me' [[= <-] H]]. auto.
  - split; [discriminate|]. intros [me [[=] _]].
Qed.

(** C6: [get_is_self] always returns a boolean.  It is true exactly when
    the context has a request whose user owns a profile with the primary key
    of the profile being serialized; without a request, and for a user with
    no profile, it is false. *)
Theorem C6_is_self (self : Serializer) (profile : Row) (db : DB) :
  exists b,
    get_is_self self profile db = Ok b
    /\ (b = true <->
        exists request me,
          context self !! "request" = Some request
          /\ head (actor_profiles (user request) db) = Some me
          /\ row_pk me = row_pk profile)
    /\ (context self !! "request" = None -> b = false)
    /\ (forall request,
          context self !! "request" = Some request ->
          actor_profiles (user request) db = [] -> b = false).
Proof.
  unfold get_is_self.
  destruct (context self !! "request") as [request|] eqn:Hreq.
  - destruct (actor_profiles (user request) db) as [|me rows] eqn:Hp.
    + rewrite (getattr_profile_none _ _ Hp). simpl. exists false.
      split; [reflexivity|]. split; [|split; [discriminate|reflexivity]].
      split; [discriminate|].
      intros [request' [me [[= <-] [Hhd _]]]]. rewrite Hp in Hhd. discriminate.
    + rewrite (getattr_profile_some _ _ _ _ Hp). simpl.
      exists (bool_decide (row_pk profile = row_pk me)).
      split; [reflexivity|]. split; [|split; [discriminate|]].
      * rewrite bool_decide_eq_true. split.
        -- intros H. exists request, me. rewrite Hp. auto.
        -- intros [request' [me' [[= <-] [Hhd Hpk]]]]. rewrite Hp in Hhd.
           simpl in Hhd. congruence.
      * intros request' [= <-] Hnil. rewrite Hp in Hnil. discriminate.
  - simpl. exists false. split; [reflexivity|].
    split; [|split; [reflexivity|discriminate]].
    split; [discriminate|]. intros [request [me [[=] _]]].
Qed.

Example is_self_own_profile :
  get_is_self (mkSerializer StoreProfileSerializer (context_of (User 7)))
    (mkRow 3 {[ "user" := VRef "User" 7 ]}) sample_db = Ok true.
Proof. reflexivity. Qed.

Example is_self_other_profile :
  get_is_self (mkSerializer StoreProfileSerializer (context_of (User 7)))
    (mkRow 99 {[ "user" := VRef "User" 8 ]}) sample_db = Ok false.
Proof. reflexivity. Qed.

Example is_self_anonymous :
  get_is_self (mkSerializer StoreProfileSerializer (context_of AnonymousUser))
    (mkRow 3 {[ "user" := VRef "User" 7 ]}) sample_db = Ok false.
Proof. reflexivity. Qed.

Example is_self_no_request :
  get_is_self (mkSerializer StoreProfileSerializer ∅)
    (mkRow 3 {[ "user" := VRef "User" 7 ]}) sample_db = Ok false.
Proof. reflexivity. Qed.

(** ** StoreProfileSerializer.create *)

Lemma reject_second_profile_has a db p rows :
  actor_profiles a db = p :: rows ->
  reject_second_profile a db = (Raise (ValidationError already_has_profile), db).
Proof.
  intros Hp. unfold reject_second_profile.
  rewrite (getattr_profile_some _ _ _ _ Hp).
  destruct a as [| |u]; simpl in *; try discriminate. reflexivity.
Qed.

Lemma reject_second_profile_none a db :
  actor_profiles a db = [] -> reject_second_profile a db = (Ok tt, db).
Proof.
  intros Hp. unfold reject_second_profile.
  rewrite (getattr_profile_none _ _ Hp). simpl.
  destruct (truthy a && is_authenticated a); reflexivity.
Qed.

Section StoreProfileSerializer_create.

(** The two methods the class inherits from [FlatNestedSerializerMixin];
    nothing is assumed of them. *)
Variable _update_flattened_field :
  Serializer -> gmap string value -> gmap string value ->
  M (gmap string value * gmap string value).
Variable super_create : Serializer -> gmap string value -> M Row.

Local Abbreviation create :=
  (StoreProfileSerializer_create _update_flattened_field super_create).
Local Abbreviation create_body :=
  (StoreProfileSerializer_create_body _update_flattened_field super_create).

(** When the body returns, so does create, with the body's writes. *)
Lemma StoreProfileSerializer_create_commits self validated_data db r db' :
  create_body self validated_data db = (Ok r, db') ->
  create self validated_data db = (Ok r, db').
Proof. apply atomic_ok. Qed.

(** However create raises, the store is the one it started from. *)
Lemma StoreProfileSerializer_create_raise self validated_data db e db' :
  create self validated_data db = (Raise e, db') -> db' = db.
Proof. apply atomic_raise_restores. Qed.

(** For a user without a profile the body is: flatten, add the relations,
    delegate. *)
Lemma StoreProfileSerializer_create_body_new self validated_data db request :
  context self !! "request" = Some request ->
  actor_profiles (user request) db = [] ->
  create_body self validated_data db
  = (do dicts <- _update_flattened_field self validated_data
                   {[ "user" := actor_value (user request) ]};
     super_create self (dict_update (fst dicts) (snd dicts))) db.
Proof.
  intros Hreq Hnone. unfold StoreProfileSerializer_create_body, getitem.
  rewrite Hreq, bind_lift_ok. unfold bind at 1.
  rewrite (reject_second_profile_none _ _ Hnone).
  unfold bind. destruct (_update_flattened_field _ _ _ db) as [[[vd ro]|e] db'];
    reflexivity.
Qed.

(** C4: when the request's user already owns a profile, create raises the
    validation error, whatever the payload and whatever the mixin's helpers
    do; the store is left as it was, so no profile is added and a user with
    one profile still has one. *)
Theorem C4_second_profile_rejected
    (self : Serializer) (validated_data : gmap string value) (db : DB)
    (request : Request) (p : Row) (rows : list Row) :
  context self !! "request" = Some request ->
  actor_profiles (user request) db = p :: rows ->
  create self validated_data db
  = (Raise (ValidationError already_has_profile), db)
  /\ is_validation_error (ValidationError already_has_profile) = true
  /\ rows_of "StoreProfile" (snd (create self validated_data db))
     = rows_of "StoreProfile" db
  /\ (rows = [] ->
      length (actor_profiles (user request)
                (snd (create self validated_data db))) = 1%nat).
Proof.
  intros Hreq Hp.
  assert (Hc : create self validated_data db
               = (Raise (ValidationError already_has_profile), db)).
  { unfold StoreProfileSerializer_create, atomic,
      StoreProfileSerializer_create_body, getitem.
    rewrite Hreq, bind_lift_ok. unfold bind at 1.
    rewrite (reject_second_profile_has _ _ _ _ Hp). reflexivity. }
  rewrite Hc. simpl. repeat split. intros ->. rewrite Hp. reflexivity.
Qed.

(** C2: whatever the body of create wrote before it raised (the related
    entities, or part of them), create raises the same exception and leaves
    the store as it found it: none of those writes persists, and no parent
    row does. *)
Theorem C2_create_is_atomic
    (self : Serializer) (validated_data : gmap string value)
    (db partial : DB) (e : exn) :
  create_body self validated_data db = (Raise e, partial) ->
  create self validated_data db = (Raise e, db).
Proof.
  intros Hbody. unfold StoreProfileSerializer_create, atomic.
  rewrite Hbody. reflexivity.
Qed.

End StoreProfileSerializer_create.

Lemma C4_witness :
  StoreProfileSerializer_create
    (FlatNestedSerializerMixin_update_flattened_field accept_all
       sample_related_model)
    (ModelSerializer_create accept_all)
    (mkSerializer StoreProfileSerializer (context_of (User 7)))
    profile_payload sample_db
  = (Raise (ValidationError already_has_profile), sample_db).
Proof.
  refine (proj1 (C4_second_profile_rejected _ _
            (mkSerializer StoreProfileSerializer (context_of (User 7)))
            profile_payload sample_db (mkRequest (User 7))
            (mkRow 3 {[ "user" := VRef "User" 7 ]}) [] _ _)); reflexivity.
Defined.

Lemma C2_witness :
  StoreProfileSerializer_create
    (FlatNestedSerializerMixin_update_flattened_field accept_all
       sample_related_model)
    (ModelSerializer_create refuse_profiles)
    (mkSerializer StoreProfileSerializer (context_of (User 9)))
    profile_payload sample_db
  = (Raise (StorageError "StoreProfile"), sample_db).
Proof.
  apply (C2_create_is_atomic _ _ _ _ sample_db sample_db_user_9_updated).
  vm_compute. reflexivity.
Defined.

(** The write that the transaction undoes in the sample: the user's row. *)
Example sample_partial_write :
  StoreProfileSerializer_create_body
    (FlatNestedSerializerMixin_update_flattened_field accept_all
       sample_related_model)
    (ModelSerializer_create refuse_profiles)
    (mkSerializer StoreProfileSerializer (context_of (User 9)))
    profile_payload sample_db
  = (Raise (StorageError "StoreProfile"), sample_db_user_9_updated)
  /\ rows_of "User" sample_db_user_9_updated <> rows_of "User" sample_db.
Proof. split; [vm_compute; reflexivity | vm_compute; discriminate]. Qed.

(** The same request on a storage layer that accepts the profile: the user
    row is updated and the profile row refers to the user. *)
Example sample_profile_created :
  StoreProfileSerializer_create
    (FlatNestedSerializerMixin_update_flattened_field accept_all
       sample_related_model)
    (ModelSerializer_create accept_all)
    (mkSerializer StoreProfileSerializer (context_of (User 9)))
    profile_payload sample_db
  = (Ok (mkRow 100 {[ "phone" := VStr "555"; "city" := VStr "Oslo";
                      "user" := VRef "User" 9 ]}),
     <["StoreProfile" :=
         [mkRow 3 {[ "user" := VRef "User" 7 ]};
          mkRow 99 {[ "user" := VRef "User" 8 ]};
          mkRow 100 {[ "phone" := VStr "555"; "city" := VStr "Oslo";
                       "user" := VRef "User" 9 ]}]]>
       sample_db_user_9_updated).
Proof. vm_compute. reflexivity. Qed.

(** ** CategorySerializer *)

Lemma ctree_nested_ind (P : ctree -> Prop) :
  (forall c ts, Forall P ts -> P (CNode c ts)) -> forall t, P t.
Proof.
  intros step. fix IH 1. intros [c ts]. apply step.
  induction ts as [|t ts IHts]; constructor; [apply IH | exact IHts].
Qed.

Lemma render_shape t : category_shape (render t).
Proof.
  induction t as [c ts IH] using ctree_nested_ind. simpl. constructor.
  induction IH; simpl; constructor; assumption.
Qed.

Lemma render_nodes t : json_nodes (render t) = tree_size t.
Proof.
  induction t as [c ts IH] using ctree_nested_ind. simpl. f_equal.
  rewrite Nat.add_0_r. induction IH as [|t ts Ht _ IHts]; simpl; [reflexivity|].
  rewrite Ht, IHts. reflexivity.
Qed.

Lemma render_keys t : keys_of (render t) = CategorySerializer_Meta_fields.
Proof. destruct t. reflexivity. Qed.

Lemma has_child_inv cats c ch :
  has_child cats c ch <-> ch ∈ cats /\ parent ch = Some (cat_pk c).
Proof.
  unfold has_child, children_of. rewrite list_elem_of_filter. tauto.
Qed.

(** Every descendant of a category is a row of the table. *)
Lemma descendants_finite cats c : pred_finite (tc (has_child cats) c).
Proof.
  exists cats. intros d Hd. induction Hd as [x y H|x y z _ _ IH].
  - apply has_child_inv in H. tauto.
  - exact IH.
Qed.

(** In an acyclic table every category unfolds to a tree. *)
Lemma acyclic_unfolds cats c : acyclic cats -> exists t, unfolds cats c t.
Proof.
  intros Hacyc.
  assert (Hsn : sn (has_child cats) c)
    by (apply tc_finite_sn; [exact Hacyc | apply descendants_finite]).
  induction Hsn as [c _ IH].
  assert (Hts : forall l, (forall ch, ch ∈ l -> has_child cats c ch) ->
                          exists ts, Forall2 (unfolds cats) l ts).
  { induction l as [|ch l IHl]; intros Hl.
    - exists []. constructor.
    - destruct (IH ch) as [t Ht]; [apply Hl; left|].
      destruct IHl as [ts Hts]; [intros x Hx; apply Hl; right; exact Hx|].
      exists (t :: ts). constructor; assumption. }
  destruct (Hts (children_of cats c)) as [ts Hall]; [intros ch Hch; exact Hch|].
  exists (CNode c ts). constructor. exact Hall.
Qed.

(** A depth of recursion that covers the tree suffices. *)
Lemma to_representation_unfolds cats fuel : forall c t,
  unfolds cats c t -> (tree_depth t <= fuel)%nat ->
  CategorySerializer_to_representation fuel cats c = Some (render t).
Proof.
  induction fuel as [|fuel IH]; intros c t Hu Hd.
  - destruct t; simpl in Hd; lia.
  - destruct Hu as [c ts Hall]. simpl in Hd. apply le_S_n in Hd. simpl.
    assert (Hm : mapM (CategorySerializer_to_representation fuel cats)
                   (children_of cats c) = Some (map render ts)).
    { apply mapM_Some. revert Hd.
      induction Hall as [|ch t l ts' Hch _ IHall]; simpl; intros Hd.
      - constructor.
      - constructor; [apply IH; [exact Hch|lia] | apply IHall; lia]. }
    rewrite Hm. reflexivity.
Qed.

(** A depth of recursion below the depth of the tree does not. *)
Lemma to_representation_shallow cats fuel : forall c t,
  unfolds cats c t -> (fuel < tree_depth t)%nat ->
  CategorySerializer_to_representation fuel cats c = None.
Proof.
  induction fuel as [|fuel IH]; intros c t Hu Hd; [reflexivity|].
  destruct Hu as [c ts Hall]. simpl in Hd. apply Nat.succ_lt_mono in Hd. simpl.
  assert (Hm : mapM (CategorySerializer_to_representation fuel cats)
                 (children_of cats c) = None).
  { apply mapM_None. revert Hd.
    induction Hall as [|ch t l ts' Hch _ IHall]; simpl; intros Hd; [lia|].
    destruct (Nat.max_spec (tree_depth t)
                (foldr (fun t acc => Nat.max (tree_depth t) acc) O ts'))
      as [[_ Hmax]|[_ Hmax]]; rewrite Hmax in Hd.
    - right. apply IHall. exact Hd.
    - left. apply (IH ch t); assumption. }
  rewrite Hm. reflexivity.
Qed.

(** The tree of a category is unique, so the depth it needs is too. *)
Lemma unfolds_functional cats : forall t c t',
  unfolds cats c t -> unfolds cats c t' -> t = t'.
Proof.
  induction t as [c0 ts IH] using ctree_nested_ind. intros c t' H1 H2.
  inversion H1 as [c1 ts1 Hall1]; subst. inversion H2 as [c2 ts2 Hall2]; subst.
  f_equal. clear H1 H2. revert ts2 Hall2 IH.
  induction Hall1 as [|ch t l ts Hch _ IHall]; intros ts2 Hall2 IHts.
  - inversion Hall2. reflexivity.
  - inversion Hall2 as [|? t2 ? ts2' Hch2 Hall2']; subst.
    inversion IHts as [|? ? Ht Hts]; subst. f_equal.
    + eapply Ht; eassumption.
    + apply IHall; assumption.
Qed.

Lemma ranked_descends rank cats c d :
  ranked rank cats -> tc (has_child cats) c d ->
  (rank (cat_pk d) < rank (cat_pk c))%nat.
Proof.
  intros Hr Htc. induction Htc as [x y H|x y z H _ IH].
  - apply has_child_inv in H as [Hin Hp].
    unfold ranked in Hr. rewrite Forall_forall in Hr.
    specialize (Hr y Hin). rewrite Hp in Hr. exact Hr.
  - apply has_child_inv in H as [Hin Hp].
    unfold ranked in Hr. rewrite Forall_forall in Hr.
    specialize (Hr y Hin). rewrite Hp in Hr. lia.
Qed.

Lemma ranked_acyclic rank cats : ranked rank cats -> acyclic cats.
Proof.
  intros Hr c Hc. pose proof (ranked_descends rank cats c c Hr Hc). lia.
Qed.

Lemma to_representation_inv fuel cats c j :
  CategorySerializer_to_representation fuel cats c = Some j ->
  exists n items,
    fuel = S n
    /\ mapM (CategorySerializer_to_representation n cats) (children_of cats c)
       = Some items
    /\ j = JObj [("name", JStr (name c)); ("slug", JStr (slug c));
                 ("children", JList items)].
Proof.
  destruct fuel as [|n]; simpl; [discriminate|].
  destruct (mapM _ _) as [items|] eqn:Hm; simpl; [|discriminate].
  intros [= <-]. exists n, items. auto.
Qed.

Lemma to_representation_child n cats c j ch :
  CategorySerializer_to_representation (S n) cats c = Some j ->
  has_child cats c ch ->
  exists j', CategorySerializer_to_representation n cats ch = Some j'.
Proof.
  intros Hj Hch. apply to_representation_inv in Hj
    as (n' & items & [= <-] & Hm & _).
  apply mapM_Some in Hm. unfold has_child in Hch.
  induction Hm as [|x y l k Hxy _ IH]; [inversion Hch|].
  apply elem_of_cons in Hch as [->|Hch]; [eauto | apply IH; exact Hch].
Qed.

(** What the serializer returns at one depth it returns at every greater
    depth. *)
Lemma to_representation_mono (cats : list Category) :
  forall (n m : nat) (c : Category) (j : json),
  CategorySerializer_to_representation n cats c = Some j ->
  (n <= m)%nat ->
  CategorySerializer_to_representation m cats c = Some j.
Proof.
  induction n as [|n IH]; intros m c j Hj Hle; [discriminate|].
  destruct m as [|m]; [lia|]. apply le_S_n in Hle.
  apply to_representation_inv in Hj as (n' & items & [= <-] & Hm & ->).
  simpl.
  assert (Hm' : mapM (CategorySerializer_to_representation m cats)
                  (children_of cats c) = Some items).
  { apply mapM_Some. apply mapM_Some in Hm.
    eapply Forall2_impl; [exact Hm|]. intros x y Hxy. simpl in *.
    apply (IH m); assumption. }
  rewrite Hm'. reflexivity.
Qed.

Lemma levels_under_limit_le frames base :
  (levels_under_limit frames base <= recursion_limit)%nat.
Proof.
  unfold levels_under_limit. destruct frames as [|k]; [simpl; lia|].
  etransitivity; [apply Nat.Div0.div_le_upper_bound with (q := (recursion_limit - base)%nat)|lia].
  nia.
Qed.

(** C7: on an acyclic table every category unfolds to a tree [t], and the
    serializer returns the rendering of [t] whenever the depth of [t] fits
    under the interpreter's recursion limit; when it does not fit, the
    serializer raises [RecursionError].  The rendering has the shape of
    [t], one object per node of [t], and every object has exactly the keys
    name, slug and children. *)
Theorem C7_category_tree_within_recursion_limit
    (cats : list Category) (c : Category) (frames base : nat) :
  acyclic cats ->
  exists t,
    unfolds cats c t
    /\ ((tree_depth t <= levels_under_limit frames base)%nat ->
        CategorySerializer_data frames base cats c = Some (render t))
    /\ ((levels_under_limit frames base < tree_depth t)%nat ->
        CategorySerializer_data frames base cats c = None)
    /\ category_shape (render t)
    /\ json_nodes (render t) = tree_size t
    /\ keys_of (render t) = ["name"; "slug"; "children"].
Proof.
  intros Hacyc. destruct (acyclic_unfolds cats c Hacyc) as [t Ht].
  exists t. split; [exact Ht|]. split; [|split; [|split; [|split]]].
  - intros Hd. apply to_representation_unfolds; assumption.
  - intros Hd. apply (to_representation_shallow _ _ _ t); assumption.
  - apply render_shape.
  - apply render_nodes.
  - apply render_keys.
Qed.

Lemma C7_witness :
  exists t,
    unfolds sample_cats (mkCategory 1 "Vegetables" "vegetables" None) t
    /\ ((tree_depth t <= levels_under_limit 3 25)%nat ->
        CategorySerializer_data 3 25 sample_cats
          (mkCategory 1 "Vegetables" "vegetables" None) = Some (render t))
    /\ ((levels_under_limit 3 25 < tree_depth t)%nat ->
        CategorySerializer_data 3 25 sample_cats
          (mkCategory 1 "Vegetables" "vegetables" None) = None)
    /\ category_shape (render t)
    /\ json_nodes (render t) = tree_size t
    /\ keys_of (render t) = ["name"; "slug"; "children"].
Proof.
  apply (C7_category_tree_within_recursion_limit sample_cats
           (mkCategory 1 "Vegetables" "vegetables" None) 3 25).
  apply (ranked_acyclic heap_rank). unfold sample_cats.
  repeat constructor; simpl; lia.
Defined.

Lemma chain_cats_ranked : ranked chain_rank chain_cats.
Proof.
  unfold ranked, chain_cats. apply Forall_fmap, Forall_forall.
  intros k Hk. apply elem_of_seq in Hk. simpl.
  destruct (Nat.eqb k 1) eqn:Hk1; [exact I|].
  apply Nat.eqb_neq in Hk1. unfold chain_rank. lia.
Qed.

Lemma chain_cats_exceeds_limit :
  CategorySerializer_to_representation recursion_limit chain_cats
    (mkCategory 1 "node" "node" None) = None.
Proof. vm_compute. reflexivity. Qed.

(** The chain of 1001 categories is acyclic, and the serializer raises
    [RecursionError] on its root whatever the number of frames a level
    takes: a tree of arbitrary depth is not always serialized. *)
Lemma C7_deep_chain_not_serialized :
  acyclic chain_cats
  /\ forall frames base,
       CategorySerializer_data frames base chain_cats
         (mkCategory 1 "node" "node" None) = None.
Proof.
  split; [exact (ranked_acyclic chain_rank chain_cats chain_cats_ranked)|].
  intros frames base. unfold CategorySerializer_data.
  destruct (CategorySerializer_to_representation
              (levels_under_limit frames base) chain_cats
              (mkCategory 1 "node" "node" None)) as [j|] eqn:Hj; [|reflexivity].
  apply (to_representation_mono _ _ recursion_limit) in Hj;
    [|apply levels_under_limit_le].
  rewrite chain_cats_exceeds_limit in Hj. discriminate.
Qed.

Example sample_cats_serialized :
  CategorySerializer_to_representation 3 sample_cats
    (mkCategory 1 "Vegetables" "vegetables" None)
  = Some (JObj [("name", JStr "Vegetables"); ("slug", JStr "vegetables");
       ("children", JList [
          JObj [("name", JStr "Roots"); ("slug", JStr "roots");
                ("children", JList [
                   JObj [("name", JStr "Carrots"); ("slug", JStr "carrots");
                         ("children", JList [])]])];
          JObj [("name", JStr "Leaves"); ("slug", JStr "leaves");
                ("children", JList [])]])]).
Proof. vm_compute. reflexivity. Qed.

(** The tree of depth 5 and branching factor 2: 31 rows, 31 objects. *)
Example binary_cats_serialized :
  exists j,
    CategorySerializer_to_representation 5 binary_cats
      (mkCategory 1 "node" "node" None) = Some j
    /\ json_nodes j = 31%nat
    /\ length binary_cats = 31%nat.
Proof.
  eexists. split; [vm_compute; reflexivity|]. split; vm_compute; reflexivity.
Qed.

Example binary_cats_too_shallow :
  CategorySerializer_to_representation 4 binary_cats
    (mkCategory 1 "node" "node" None) = None.
Proof. vm_compute. reflexivity. Qed.

(** On a cycle no depth suffices: the hypothesis of acyclicity is needed. *)
Lemma cyclic_cats_never_return fuel :
  CategorySerializer_to_representation fuel cyclic_cats
    (mkCategory 1 "a" "a" (Some 2)) = None
  /\ CategorySerializer_to_representation fuel cyclic_cats
       (mkCategory 2 "b" "b" (Some 1)) = None.
Proof.
  induction fuel as [|fuel [IHa IHb]]; [split; reflexivity|].
  split.
  - change (CategorySerializer_to_representation (S fuel) cyclic_cats
              (mkCategory 1 "a" "a" (Some 2)))
      with (children ← mapM (CategorySerializer_to_representation fuel cyclic_cats)
                         [mkCategory 2 "b" "b" (Some 1)];
            Some (JObj [("name", JStr "a"); ("slug", JStr "a");
                        ("children", JList children)])).
    simpl. rewrite IHb. reflexivity.
  - change (CategorySerializer_to_representation (S fuel) cyclic_cats
              (mkCategory 2 "b" "b" (Some 1)))
      with (children ← mapM (CategorySerializer_to_representation fuel cyclic_cats)
                         [mkCategory 1 "a" "a" (Some 2)];
            Some (JObj [("name", JStr "b"); ("slug", JStr "b");
                        ("children", JList children)])).
    simpl. rewrite IHa. reflexivity.
Qed.

(** ** Splitting and re-merging a flat payload *)

Lemma take_group_merge names (payload : gmap string value) :
  fst (take_group names payload) ∪ snd (take_group names payload) = payload.
Proof. unfold take_group. simpl. apply map_filter_union_complement. Qed.

Lemma take_group_disjoint names (payload : gmap string value) :
  fst (take_group names payload) ##ₘ snd (take_group names payload).
Proof. unfold take_group. simpl. apply map_disjoint_filter_complement. Qed.

Lemma take_group_keys names (payload : gmap string value) k :
  k ∈ dom (fst (take_group names payload)) <-> k ∈ dom payload /\ k ∈ names.
Proof.
  unfold take_group. simpl. rewrite !elem_of_dom. unfold is_Some. split.
  - intros [v Hv]. apply map_lookup_filter_Some in Hv as [Hv Hk]. eauto.
  - intros [[v Hv] Hk]. exists v. apply map_lookup_filter_Some. auto.
Qed.

Lemma split_payload_cons relation names spec (payload : gmap string value) :
  split_payload ((relation, names) :: spec) payload
  = ((relation, fst (take_group names payload))
       :: fst (split_payload spec (snd (take_group names payload))),
     snd (split_payload spec (snd (take_group names payload)))).
Proof.
  unfold take_group. simpl.
  destruct (split_payload spec _) as [subs own]. reflexivity.
Qed.

(** For any specification, also one whose groups overlap: merging what the
    split produced gives the payload back. *)
Lemma split_merge spec : forall payload : gmap string value,
  merge_payload (fst (split_payload spec payload))
                (snd (split_payload spec payload)) = payload.
Proof.
  induction spec as [|[relation names] spec IH]; intros payload; [reflexivity|].
  rewrite split_payload_cons. unfold merge_payload in *. simpl.
  rewrite IH. apply take_group_merge.
Qed.

(** The sizes add up: no key is in two parts. *)
Lemma split_sizes spec : forall payload : gmap string value,
  (foldr (fun g acc => size (snd g) + acc) (size (snd (split_payload spec payload)))
         (fst (split_payload spec payload)) = size payload)%nat.
Proof.
  induction spec as [|[relation names] spec IH]; intros payload; [reflexivity|].
  rewrite split_payload_cons. simpl. rewrite IH.
  rewrite <- (take_group_merge names payload) at 3.
  symmetry. apply map_size_disj_union, take_group_disjoint.
Qed.

(** C3: on the flatten groups of [StoreProfileSerializer] a flat payload
    splits into one sub-payload for [user] and the parent's own fields;
    merging the two gives the payload back.  No key is lost (the key sets
    union to the payload's), none is in both parts, the sub-payload holds
    exactly the payload's keys among email, first_name and last_name, and
    every key keeps its name and value. *)
Theorem C3_split_merge_inverse (payload : gmap string value) :
  exists user_sub own : gmap string value,
    split_payload (flatten_fields StoreProfileSerializer_Meta) payload
    = ([("user", user_sub)], own)
    /\ merge_payload [("user", user_sub)] own = payload
    /\ dom user_sub ∪ dom own = dom payload
    /\ dom user_sub ## dom own
    /\ (size user_sub + size own = size payload)%nat
    /\ (forall k, k ∈ dom user_sub <->
                  k ∈ dom payload /\ k ∈ ["email"; "first_name"; "last_name"])
    /\ user_sub ⊆ payload
    /\ own ⊆ payload.
Proof.
  exists (fst (take_group user_fields payload)),
         (snd (take_group user_fields payload)).
  pose proof (take_group_merge user_fields payload) as Hmerge.
  pose proof (take_group_disjoint user_fields payload) as Hdisj.
  split; [reflexivity|].
  split; [unfold merge_payload; simpl; exact Hmerge|].
  split; [rewrite <- dom_union_L, Hmerge; reflexivity|].
  split; [apply map_disjoint_dom; exact Hdisj|].
  split; [rewrite <- map_size_disj_union, Hmerge by exact Hdisj; reflexivity|].
  split; [apply take_group_keys|].
  split; apply map_filter_subseteq.
Qed.

Example split_profile_payload :
  split_payload (flatten_fields StoreProfileSerializer_Meta) profile_payload
  = ([("user", {[ "email" := VStr "new@x.org"; "first_name" := VStr "Ada" ]})],
     {[ "phone" := VStr "555"; "city" := VStr "Oslo" ]}).
Proof. vm_compute. reflexivity. Qed.

(** ** Schema variants *)

Lemma StoreProfileSerializer_fields :
  fields StoreProfileSerializer_Meta
  = ["email"; "first_name"; "last_name"; "id"; "is_self"; "phone"; "city";
     "address"; "person_type"; "seller_type"; "products"].
Proof. reflexivity. Qed.

Lemma StoreProfileCreateSerializer_fields :
  fields StoreProfileCreateSerializer_Meta
  = ["email"; "first_name"; "last_name"; "id"; "is_self"; "phone"; "city";
     "address"; "person_type"; "seller_type"].
Proof. vm_compute. reflexivity. Qed.

Lemma StoreProfileNestedSerializer_fields :
  fields StoreProfileNestedSerializer_Meta
  = ["email"; "first_name"; "last_name"; "id"; "is_self"; "phone"; "city";
     "address"; "person_type"; "seller_type"].
Proof. vm_compute. reflexivity. Qed.

Lemma StoreProfileCreateSerializer_extra_kwargs :
  extra_kwargs StoreProfileCreateSerializer_Meta
  = [("first_name", true); ("last_name", true); ("is_self", true);
     ("phone", true); ("city", true); ("address", true);
     ("person_type", true); ("seller_type", true)].
Proof. vm_compute. reflexivity. Qed.

(** C8: as sets of names, the creation variant and the nested variant each
    declare the base fields without products, the detail variant declares
    the list variant's fields and description, which the list variant does
    not have; in the creation variant every field outside
    [read_only_fields] is marked required. *)
Theorem C8_schema_variant_field_sets :
  list_to_set (fields StoreProfileCreateSerializer_Meta)
    = (list_to_set (fields StoreProfileSerializer_Meta) ∖ {["products"]} : gset string)
  /\ Forall (fun f => required StoreProfileCreateSerializer_Meta f = Some true)
       (filter (fun f => f ∉ read_only_fields StoreProfileCreateSerializer_Meta)
               (fields StoreProfileCreateSerializer_Meta))
  /\ list_to_set (fields StoreProfileNestedSerializer_Meta)
     = (list_to_set (fields StoreProfileSerializer_Meta) ∖ {["products"]} : gset string)
  /\ fields StoreProfileNestedSerializer_Meta
     = fields StoreProfileCreateSerializer_Meta
  /\ list_to_set (fields ProductDetailSerializer_Meta)
     = (list_to_set (fields ProductListSerializer_Meta) ∪ {["description"]} : gset string)
  /\ ("description" ∉ fields ProductListSerializer_Meta)
  /\ ("products" ∈ fields StoreProfileSerializer_Meta).
Proof.
  split.
  { apply set_eq. intros f.
    rewrite elem_of_difference, !elem_of_list_to_set, not_elem_of_singleton.
    unfold StoreProfileCreateSerializer_Meta. simpl fields at 1.
    rewrite list_elem_of_filter. tauto. }
  split.
  { rewrite StoreProfileCreateSerializer_fields. unfold required.
    rewrite StoreProfileCreateSerializer_extra_kwargs.
    vm_compute. repeat constructor. }
  split.
  { apply set_eq. intros f.
    rewrite elem_of_difference, !elem_of_list_to_set, not_elem_of_singleton.
    unfold StoreProfileNestedSerializer_Meta. simpl fields at 1.
    rewrite list_elem_of_filter. tauto. }
  split.
  { rewrite StoreProfileNestedSerializer_fields,
      StoreProfileCreateSerializer_fields. reflexivity. }
  split.
  { apply set_eq. intros f.
    rewrite elem_of_union, !elem_of_list_to_set, elem_of_singleton.
    change (fields ProductDetailSerializer_Meta)
      with (fields ProductListSerializer_Meta ++ ["description"])%list.
    rewrite elem_of_app, list_elem_of_singleton. tauto. }
  split.
  { apply (bool_decide_unpack _). vm_compute. exact I. }
  apply (bool_decide_unpack _). vm_compute. exact I.
Qed.

(** ** The flatten specification of StoreProfileSerializer *)

Lemma StoreProfileSerializer_fields_split :
  fields StoreProfileSerializer_Meta
  = (user_fields ++ StoreProfileSerializer_parent_fields)%list.
Proof. reflexivity. Qed.

Lemma StoreProfileSerializer_own_fields :
  own_fields StoreProfileSerializer_parent_fields StoreProfileSerializer
  = ["id"; "phone"; "city"; "address"; "person_type"; "seller_type"; "products"].
Proof. vm_compute. reflexivity. Qed.

Lemma StoreProfileSerializer_computed_fields :
  computed_fields (declared_fields StoreProfileSerializer) = ["is_self"].
Proof. reflexivity. Qed.

Lemma StoreProfileSerializer_invariant :
  flatten_invariant StoreProfileSerializer_parent_fields StoreProfileSerializer.
Proof.
  unfold flatten_invariant.
  change (Meta StoreProfileSerializer) with (Some StoreProfileSerializer_Meta).
  rewrite StoreProfileSerializer_own_fields,
    StoreProfileSerializer_computed_fields, StoreProfileSerializer_fields.
  change (group_names (flatten_fields StoreProfileSerializer_Meta))
    with ["email"; "first_name"; "last_name"].
  split; [apply (bool_decide_unpack _); vm_compute; exact I|]. split.
  - intros f Hf Hown. set_unfold.
    destruct Hf as [->|[->|[->|[]]]];
      repeat (destruct Hown as [Hown|Hown]; [discriminate Hown|]);
      destruct Hown.
  - intros f. set_unfold. split.
    + intros H. repeat (destruct H as [->|H]; [split; [tauto|];
        intros [Hc|[]]; discriminate Hc|]). destruct H.
    + intros [H Hc]. repeat (destruct H as [->|H]; [tauto|]). destruct H.
Qed.

(** C9: the flatten specification of [StoreProfileSerializer] keeps its
    invariant.  Its one group, user, borrows email, first_name and
    last_name.  These are pairwise distinct; none of them is among the
    names the class lists for the parent, whose own fields are id, phone,
    city, address, person_type, seller_type and products; no declared name
    is listed twice; and the names of the group and of the parent's own
    fields together are the declared fields without the computed
    [is_self]. *)
Theorem C9_flatten_invariant :
  flatten_invariant StoreProfileSerializer_parent_fields StoreProfileSerializer
  /\ fields StoreProfileSerializer_Meta
     = (group_names (flatten_fields StoreProfileSerializer_Meta)
        ++ StoreProfileSerializer_parent_fields)%list
  /\ NoDup (group_names (flatten_fields StoreProfileSerializer_Meta)
            ++ StoreProfileSerializer_parent_fields)
  /\ group_names (flatten_fields StoreProfileSerializer_Meta)
     = ["email"; "first_name"; "last_name"]
  /\ own_fields StoreProfileSerializer_parent_fields StoreProfileSerializer
     = ["id"; "phone"; "city"; "address"; "person_type"; "seller_type";
        "products"]
  /\ computed_fields (declared_fields StoreProfileSerializer) = ["is_self"]
  /\ (list_to_set (group_names (flatten_fields StoreProfileSerializer_Meta))
        ∪ list_to_set (own_fields StoreProfileSerializer_parent_fields
                         StoreProfileSerializer) : gset string)
     = list_to_set (fields StoreProfileSerializer_Meta) ∖ {["is_self"]}.
Proof.
  split; [exact StoreProfileSerializer_invariant|].
  split; [reflexivity|].
  split; [apply (bool_decide_unpack _); vm_compute; exact I|].
  split; [reflexivity|].
  split; [exact StoreProfileSerializer_own_fields|].
  split; [reflexivity|].
  pose proof StoreProfileSerializer_invariant as (_ & _ & Hunion).
  apply set_eq. intros f.
  rewrite elem_of_union, elem_of_difference, !elem_of_list_to_set,
    not_elem_of_singleton, <- elem_of_app.
  change (Meta StoreProfileSerializer) with (Some StoreProfileSerializer_Meta)
    in Hunion.
  rewrite (Hunion f), StoreProfileSerializer_computed_fields.
  rewrite list_elem_of_singleton. tauto.
Qed.

(** The invariant is a condition: each of its clauses fails on some class. *)
Example misdeclared_breaks_invariant :
  ¬ flatten_invariant ["phone"] misdeclared_class.
Proof.
  intros (_ & _ & Hunion). specialize (Hunion "nickname").
  destruct Hunion as [[Hin _] _].
  - simpl. set_unfold. tauto.
  - simpl in Hin. set_unfold. destruct Hin as [H|[H|[]]]; discriminate H.
Qed.

Example overlapping_breaks_invariant :
  ¬ flatten_invariant overlapping_parent_fields overlapping_class.
Proof.
  intros (_ & Hdisj & _). apply (Hdisj "phone").
  - simpl. set_unfold. tauto.
  - apply (bool_decide_unpack _). vm_compute. exact I.
Qed.

Example computed_borrowed_breaks_invariant :
  ¬ flatten_invariant ["id"] computed_borrowed_class.
Proof.
  intros (_ & _ & Hunion). specialize (Hunion "is_self").
  destruct Hunion as [[_ Hc] _].
  - apply elem_of_app. left. apply (bool_decide_unpack _). vm_compute. exact I.
  - apply Hc. apply (bool_decide_unpack _). vm_compute. exact I.
Qed.

(** * Further properties *)

(** ** SetOwnProfileMixin on any class *)

Lemma get_profile_kwargs_inv self name kwargs db db' :
  get_profile_field_name self = Ok name ->
  get_profile_kwargs self db = (Ok kwargs, db') ->
  db' = db /\ exists p, kwargs = {[ name := profile_ref p ]}.
Proof.
  intros Hname. unfold get_profile_kwargs, getitem.
  destruct (context self !! "request") as [request|]; [|discriminate].
  rewrite bind_lift_ok, Hname, bind_lift_ok. unfold bind.
  destruct (getattr_profile (user request) db) as [p|e]; [|discriminate].
  intros [= <- <-]. split; [reflexivity|]. exists p. reflexivity.
Qed.

(** X1: on any serializer whose owner field resolves to [name], through
    [Meta] or through an override, and for an actor who owns profile [p],
    create hands its super-create one payload, the same whatever the
    super-create is: [name] holds [p], every other key holds what the
    client sent, no key is dropped, and the store is untouched until the
    delegation. *)
Theorem X1_owner_attached_under_resolved_name
    (self : Serializer) (name : string) (request : Request)
    (p : Row) (rows : list Row)
    (validated_data : gmap string value) (db : DB) :
  get_profile_field_name self = Ok name ->
  context self !! "request" = Some request ->
  actor_profiles (user request) db = p :: rows ->
  exists delegated : gmap string value,
    (forall super_create,
       SetOwnProfileMixin_create super_create self validated_data db
       = super_create self delegated db)
    /\ delegated !! name = Some (profile_ref p)
    /\ (forall k, k <> name -> delegated !! k = validated_data !! k)
    /\ dom delegated = {[ name ]} ∪ dom validated_data.
Proof.
  intros Hname Hreq Hp. apply getattr_profile_some in Hp.
  exists (<[name := profile_ref p]> validated_data).
  split; [|split; [|split]].
  - intros super_create.
    apply (SetOwnProfileMixin_create_delegates _ _ request); assumption.
  - apply lookup_insert_eq.
  - intros k Hk. apply lookup_insert_ne. congruence.
  - apply dom_insert_L.
Qed.

Lemma X1_witness :
  exists delegated : gmap string value,
    (forall super_create,
       SetOwnProfileMixin_create super_create
         (mkSerializer override_class (context_of (User 7)))
         product_payload sample_db
       = super_create (mkSerializer override_class (context_of (User 7)))
           delegated sample_db)
    /\ delegated !! "owner" = Some (VRef "StoreProfile" 3)
    /\ (forall k, k <> "owner" -> delegated !! k = product_payload !! k)
    /\ dom delegated = {[ "owner" ]} ∪ dom product_payload.
Proof.
  apply (X1_owner_attached_under_resolved_name
           (mkSerializer override_class (context_of (User 7))) "owner"
           (mkRequest (User 7)) (mkRow 3 {[ "user" := VRef "User" 7 ]}) []);
    reflexivity.
Defined.

(** X2: what the client sends under the owner field has no influence:
    two payloads that agree on every other key give the same result and
    the same store, also when create fails. *)
Theorem X2_client_owner_value_is_ignored
    (super_create : Serializer -> gmap string value -> M Row)
    (self : Serializer) (name : string)
    (payload1 payload2 : gmap string value) (db : DB) :
  get_profile_field_name self = Ok name ->
  delete name payload1 = delete name payload2 ->
  SetOwnProfileMixin_create super_create self payload1 db
  = SetOwnProfileMixin_create super_create self payload2 db.
Proof.
  intros Hname Heq. unfold SetOwnProfileMixin_create, bind.
  destruct (get_profile_kwargs self db) as [[kwargs|e] db'] eqn:Hk;
    [|reflexivity].
  destruct (get_profile_kwargs_inv _ _ _ _ _ Hname Hk) as [-> [p ->]].
  unfold dict_update. rewrite <- !insert_union_singleton_l.
  rewrite <- (insert_delete_eq payload1), <- (insert_delete_eq payload2), Heq.
  reflexivity.
Qed.

Lemma X2_witness :
  SetOwnProfileMixin_create (ModelSerializer_create accept_all)
    (mkSerializer ProductNestedSerializer (context_of (User 7)))
    product_payload sample_db
  = SetOwnProfileMixin_create (ModelSerializer_create accept_all)
      (mkSerializer ProductNestedSerializer (context_of (User 7)))
      {[ "title" := VStr "carrots" ]} sample_db.
Proof.
  apply (X2_client_owner_value_is_ignored _ _ "seller"); [reflexivity|].
  vm_compute. reflexivity.
Defined.

(** X3: the list and detail variants of the product serializer inherit
    the owner field with their [Meta]: they can be constructed, and their
    create persists the payload with ['seller'] set to the actor's
    profile, as the base class does. *)
Theorem X3_product_variants_attach_seller
    (accepts : string -> gmap string value -> DB -> bool)
    (cls : SerializerClass) (ctx : Context)
    (validated_data : gmap string value) (db : DB)
    (request : Request) (p : Row) (rows : list Row) :
  cls = ProductListSerializer \/ cls = ProductDetailSerializer ->
  ctx !! "request" = Some request ->
  actor_profiles (user request) db = p :: rows ->
  SetOwnProfileMixin_init cls ctx = Ok (mkSerializer cls ctx)
  /\ SetOwnProfileMixin_create (ModelSerializer_create accepts)
       (mkSerializer cls ctx) validated_data db
     = objects_create accepts "Product"
         (<["seller" := profile_ref p]> validated_data) db.
Proof.
  intros Hcls Hreq Hp. apply getattr_profile_some in Hp.
  destruct Hcls as [-> | ->]; (split; [reflexivity|]);
    rewrite (SetOwnProfileMixin_create_delegates _ _ request "seller" p);
    solve [reflexivity | assumption].
Qed.

Lemma X3_witness :
  SetOwnProfileMixin_init ProductDetailSerializer (context_of (User 7))
  = Ok (mkSerializer ProductDetailSerializer (context_of (User 7)))
  /\ SetOwnProfileMixin_create (ModelSerializer_create accept_all)
       (mkSerializer ProductDetailSerializer (context_of (User 7)))
       product_payload sample_db
     = objects_create accept_all "Product"
         (<["seller" := VRef "StoreProfile" 3]> product_payload) sample_db.
Proof.
  apply (X3_product_variants_attach_seller accept_all ProductDetailSerializer
           (context_of (User 7)) product_payload sample_db
           (mkRequest (User 7)) (mkRow 3 {[ "user" := VRef "User" 7 ]}) []);
    [right; reflexivity | reflexivity | reflexivity].
Defined.

(** ** StoreProfileSerializer.create beyond the guard *)

Section StoreProfileSerializer_create_paths.

Variable _update_flattened_field :
  Serializer -> gmap string value -> gmap string value ->
  M (gmap string value * gmap string value).
Variable super_create : Serializer -> gmap string value -> M Row.

Local Abbreviation create :=
  (StoreProfileSerializer_create _update_flattened_field super_create).

(** X4: without a ['request'] in the context create raises [KeyError]
    before the guard and before either inherited method runs; nothing is
    written. *)
Theorem X4_profile_create_needs_request
    (self : Serializer) (validated_data : gmap string value) (db : DB) :
  context self !! "request" = None ->
  create self validated_data db = (Raise (KeyError "request"), db).
Proof.
  intros Hreq.
  unfold StoreProfileSerializer_create, atomic,
    StoreProfileSerializer_create_body, getitem.
  rewrite Hreq. reflexivity.
Qed.

(** X5: the guard stops only actors who own a profile.  For any other
    actor, a user without a profile, [AnonymousUser] or no user at all,
    create goes on: it flattens with the relation ['user'] bound to that
    actor as it is, updates the payload with the relations and delegates,
    all inside the transaction.  Authentication is not required. *)
Theorem X5_actor_without_profile_passes_guard
    (self : Serializer) (validated_data : gmap string value) (db : DB)
    (request : Request) :
  context self !! "request" = Some request ->
  actor_profiles (user request) db = [] ->
  create self validated_data db
  = atomic (do dicts <- _update_flattened_field self validated_data
                          {[ "user" := actor_value (user request) ]};
            super_create self (dict_update (fst dicts) (snd dicts))) db.
Proof.
  intros Hreq Hnone. unfold StoreProfileSerializer_create, atomic.
  rewrite (StoreProfileSerializer_create_body_new _ _ _ _ _ _ Hreq Hnone).
  reflexivity.
Qed.

(** X6: the relations the flattening step returns win over the payload:
    when the step returns payload [rest] and relations [related], the
    super-create receives every relation under its name and, under every
    other name, what [rest] holds.  A client value under a relation's name
    never reaches the model. *)
Theorem X6_relations_override_payload
    (self : Serializer) (validated_data rest related : gmap string value)
    (db db1 : DB) (request : Request) :
  context self !! "request" = Some request ->
  actor_profiles (user request) db = [] ->
  _update_flattened_field self validated_data
    {[ "user" := actor_value (user request) ]} db
  = (Ok (rest, related), db1) ->
  exists delegated : gmap string value,
    StoreProfileSerializer_create_body _update_flattened_field super_create
      self validated_data db
    = super_create self delegated db1
    /\ (forall k v, related !! k = Some v -> delegated !! k = Some v)
    /\ (forall k, related !! k = None -> delegated !! k = rest !! k).
Proof.
  intros Hreq Hnone Hupd. exists (dict_update rest related).
  split; [|split].
  - rewrite (StoreProfileSerializer_create_body_new _ _ _ _ _ _ Hreq Hnone).
    unfold bind. rewrite Hupd. reflexivity.
  - intros k v Hk. unfold dict_update. apply lookup_union_Some_l. exact Hk.
  - intros k Hk. unfold dict_update. apply lookup_union_r. exact Hk.
Qed.

End StoreProfileSerializer_create_paths.

Lemma X4_witness :
  StoreProfileSerializer_create keep_dicts echo_create
    (mkSerializer StoreProfileSerializer ∅) profile_payload sample_db
  = (Raise (KeyError "request"), sample_db).
Proof.
  apply (X4_profile_create_needs_request keep_dicts echo_create). reflexivity.
Defined.

Lemma X5_witness :
  StoreProfileSerializer_create keep_dicts echo_create
    (mkSerializer StoreProfileSerializer (context_of AnonymousUser))
    profile_payload sample_db
  = atomic (do dicts <- keep_dicts
                          (mkSerializer StoreProfileSerializer
                             (context_of AnonymousUser))
                          profile_payload {[ "user" := VAnonymousUser ]};
            echo_create (mkSerializer StoreProfileSerializer
                           (context_of AnonymousUser))
              (dict_update (fst dicts) (snd dicts))) sample_db.
Proof.
  apply (X5_actor_without_profile_passes_guard keep_dicts echo_create _ _ _
           (mkRequest AnonymousUser)); reflexivity.
Defined.

Lemma X6_witness :
  exists delegated : gmap string value,
    StoreProfileSerializer_create_body
      (FlatNestedSerializerMixin_update_flattened_field accept_all
         sample_related_model)
      (ModelSerializer_create accept_all)
      (mkSerializer StoreProfileSerializer (context_of (User 9)))
      (<["user" := VRef "User" 7]> profile_payload) sample_db
    = ModelSerializer_create accept_all
        (mkSerializer StoreProfileSerializer (context_of (User 9)))
        delegated sample_db_user_9_updated
    /\ (forall k v, ({[ "user" := VRef "User" 9 ]} : gmap string value) !! k = Some v ->
                    delegated !! k = Some v)
    /\ (forall k, ({[ "user" := VRef "User" 9 ]} : gmap string value) !! k = None ->
                  delegated !! k
                  = ({[ "user" := VRef "User" 7; "phone" := VStr "555";
                        "city" := VStr "Oslo" ]} : gmap string value) !! k).
Proof.
  apply (X6_relations_override_payload _ _ _ _ _ _ _ _ (mkRequest (User 9)));
    [reflexivity | reflexivity | vm_compute; reflexivity].
Defined.

(** ** is_self over a listing *)

Lemma get_is_self_true_pk self profile db :
  get_is_self self profile db = Ok true ->
  exists request me,
    context self !! "request" = Some request
    /\ getattr_profile (user request) db = Ok me
    /\ row_pk profile = row_pk me.
Proof.
  unfold get_is_self.
  destruct (context self !! "request") as [request|]; [|discriminate].
  destruct (getattr_profile (user request) db) as [me|[]] eqn:Hme;
    simpl; try discriminate.
  intros [= Heq]. apply bool_decide_eq_true in Heq. eauto.
Qed.

Lemma filter_none {A} (P : A -> Prop) `{forall x, Decision (P x)} (l : list A) :
  (forall x, x ∈ l -> ¬ P x) -> filter P l = [].
Proof.
  induction l as [|x l IH]; intros Hl; [reflexivity|].
  rewrite filter_cons. destruct (decide (P x)) as [HP|_].
  - exfalso. apply (Hl x); [left | exact HP].
  - apply IH. intros y Hy. apply Hl. right. exact Hy.
Qed.

Lemma filter_at_most_one {A} (P : A -> Prop) `{forall x, Decision (P x)}
    (key : A -> Z) (k : Z) (l : list A) :
  NoDup (map key l) -> (forall x, x ∈ l -> P x -> key x = k) ->
  (length (filter P l) <= 1)%nat.
Proof.
  induction l as [|x l IH]; intros Hnd Hkey; [simpl; lia|].
  simpl in Hnd. apply NoDup_cons in Hnd as [Hx Hnd].
  rewrite filter_cons. destruct (decide (P x)) as [HP|HP].
  - assert (Hnil : filter P l = []).
    { apply filter_none. intros y Hy HPy.
      apply Hx. apply list_elem_of_fmap. exists y. split; [|exact Hy].
      rewrite (Hkey x) by (left || exact HP).
      rewrite (Hkey y); [reflexivity | right; exact Hy | exact HPy]. }
    rewrite Hnil. simpl. lia.
  - apply IH; [exact Hnd|]. intros y Hy. apply Hkey. right. exact Hy.
Qed.

(** X7: in a listing of profiles with pairwise distinct primary keys, at
    most one is marked [is_self], whoever the actor is and whatever the
    rows hold. *)
Theorem X7_at_most_one_profile_is_self
    (self : Serializer) (db : DB) (profiles : list Row) :
  NoDup (map row_pk profiles) ->
  (length (filter (fun p => get_is_self self p db = Ok true) profiles) <= 1)%nat.
Proof.
  intros Hnd.
  destruct (context self !! "request") as [request|] eqn:Hreq.
  - destruct (getattr_profile (user request) db) as [me|e] eqn:Hme.
    + apply (filter_at_most_one _ row_pk (row_pk me)); [exact Hnd|].
      intros p _ Hp. apply get_is_self_true_pk in Hp
        as (request' & me' & Hreq' & Hme' & Hpk). congruence.
    + apply (filter_at_most_one _ row_pk 0); [exact Hnd|].
      intros p _ Hp. apply get_is_self_true_pk in Hp
        as (request' & me' & Hreq' & Hme' & Hpk). congruence.
  - apply (filter_at_most_one _ row_pk 0); [exact Hnd|].
    intros p _ Hp. apply get_is_self_true_pk in Hp
      as (request' & me' & Hreq' & Hme' & Hpk). congruence.
Qed.

Lemma X7_witness :
  (length (filter (fun p => get_is_self
                              (mkSerializer StoreProfileSerializer
                                 (context_of (User 7))) p sample_db = Ok true)
             (rows_of "StoreProfile" sample_db)) <= 1)%nat.
Proof.
  apply (X7_at_most_one_profile_is_self _ sample_db
           (rows_of "StoreProfile" sample_db)).
  apply (bool_decide_unpack _). vm_compute. exact I.
Defined.

(** ** CategorySerializer on any table *)

(** Whatever the serializer returns is the rendering of the category's
    tree, and the depth sufficed for it. *)
Lemma to_representation_sound cats : forall fuel c j,
  CategorySerializer_to_representation fuel cats c = Some j ->
  exists t, unfolds cats c t /\ j = render t /\ (tree_depth t <= fuel)%nat.
Proof.
  induction fuel as [|n IH]; intros c j Hj; [discriminate|].
  apply to_representation_inv in Hj as (n' & items & [= <-] & Hm & ->).
  apply mapM_Some in Hm.
  assert (Hts : exists ts,
             Forall2 (unfolds cats) (children_of cats c) ts
             /\ items = map render ts
             /\ (foldr (fun t acc => Nat.max (tree_depth t) acc) O ts <= n)%nat).
  { induction Hm as [|ch item l k Hch _ IHl].
    - exists []. split; [constructor|]. split; [reflexivity | simpl; lia].
    - destruct (IH _ _ Hch) as (t & Hu & -> & Hd).
      destruct IHl as (ts & Hall & -> & Hds).
      exists (t :: ts). split; [constructor; assumption|].
      split; [reflexivity | simpl; lia]. }
  destruct Hts as (ts & Hall & -> & Hds).
  exists (CNode c ts). split; [constructor; exact Hall|].
  split; [reflexivity | simpl; lia].
Qed.

Lemma tc_has_child_inv cats c d :
  tc (has_child cats) c d <->
  exists ch, has_child cats c ch /\ (d = ch \/ tc (has_child cats) ch d).
Proof.
  split.
  - intros H. inversion H as [? ? Hcd|? y ? Hcy Hyd]; subst; eauto.
  - intros (ch & Hch & [->|Htc]); [apply tc_once; exact Hch|].
    eapply tc_l; eassumption.
Qed.

(** The categories of the tree of [c] are [c] and its descendants. *)
Lemma tree_nodes_descendants cats : forall t c,
  unfolds cats c t ->
  forall d, d ∈ tree_nodes t <-> d = c \/ tc (has_child cats) c d.
Proof.
  induction t as [c0 ts IH] using ctree_nested_ind. intros c Hu d.
  assert (Hc : c0 = c) by (inversion Hu; reflexivity). subst c0.
  assert (Hall : Forall2 (unfolds cats) (children_of cats c) ts)
    by (inversion Hu; assumption).
  simpl. rewrite elem_of_cons, tc_has_child_inv. unfold has_child at 1.
  assert (Hsub : d ∈ concat (map tree_nodes ts) <->
                 exists ch, ch ∈ children_of cats c
                            /\ (d = ch \/ tc (has_child cats) ch d)).
  { clear Hu. induction Hall as [|ch t l ts' Hch _ IHall]; simpl.
    - split; [intros H; inversion H | intros (ch & H & _); inversion H].
    - inversion IH as [|? ? Ht Hts]; subst.
      rewrite elem_of_app, (Ht ch Hch d), (IHall Hts). split.
      + intros [H|(ch' & Hin & H)]; [exists ch; split; [left|exact H]|].
        exists ch'. split; [right; exact Hin | exact H].
      + intros (ch' & Hin & H). apply elem_of_cons in Hin as [->|Hin];
          [left; exact H | right; eauto]. }
  rewrite Hsub. reflexivity.
Qed.

(** X9: whenever the serializer returns, on any table and at any depth,
    its output is the rendering of a tree that unfolds the category in the
    table: it has the three-key shape at every node, and its nodes are the
    category itself and exactly its descendants, none missing and no
    other row included. *)
Theorem X9_output_is_the_subtree
    (cats : list Category) (fuel : nat) (c : Category) (j : json) :
  CategorySerializer_to_representation fuel cats c = Some j ->
  exists t,
    unfolds cats c t
    /\ j = render t
    /\ category_shape j
    /\ (forall d, d ∈ tree_nodes t <-> d = c \/ tc (has_child cats) c d)
    /\ json_nodes j = length (tree_nodes t).
Proof.
  intros Hj. destruct (to_representation_sound _ _ _ _ Hj) as (t & Hu & -> & _).
  exists t. split; [exact Hu|]. split; [reflexivity|].
  split; [apply render_shape|]. split; [apply tree_nodes_descendants; exact Hu|].
  rewrite render_nodes. clear.
  induction t as [c ts IH] using ctree_nested_ind. simpl. f_equal.
  induction IH as [|t ts Ht _ IHts]; simpl; [reflexivity|].
  rewrite length_app, Ht, IHts. reflexivity.
Qed.

Lemma X9_witness :
  exists t,
    unfolds sample_cats (mkCategory 2 "Roots" "roots" (Some 1)) t
    /\ JObj [("name", JStr "Roots"); ("slug", JStr "roots");
             ("children", JList [
                JObj [("name", JStr "Carrots"); ("slug", JStr "carrots");
                      ("children", JList [])]])] = render t
    /\ category_shape
         (JObj [("name", JStr "Roots"); ("slug", JStr "roots");
                ("children", JList [
                   JObj [("name", JStr "Carrots"); ("slug", JStr "carrots");
                         ("children", JList [])]])])
    /\ (forall d, d ∈ tree_nodes t <->
                  d = mkCategory 2 "Roots" "roots" (Some 1)
                  \/ tc (has_child sample_cats)
                       (mkCategory 2 "Roots" "roots" (Some 1)) d)
    /\ json_nodes
         (JObj [("name", JStr "Roots"); ("slug", JStr "roots");
                ("children", JList [
                   JObj [("name", JStr "Carrots"); ("slug", JStr "carrots");
                         ("children", JList [])]])])
       = length (tree_nodes t).
Proof.
  apply (X9_output_is_the_subtree sample_cats 2). reflexivity.
Defined.

(** X10: the serializer does not defend against cycles: a category from
    which a category on a cycle can be reached, itself included, is not
    serialized at any depth. *)
Theorem X10_cycle_below_never_returns
    (cats : list Category) (c d : Category) :
  rtc (has_child cats) c d ->
  tc (has_child cats) d d ->
  forall fuel, CategorySerializer_to_representation fuel cats c = None.
Proof.
  intros Hcd Hdd.
  assert (Hstep : forall x y, tc (has_child cats) x y ->
            forall fuel j,
              CategorySerializer_to_representation fuel cats x = Some j ->
              exists fuel' j',
                (fuel' < fuel)%nat
                /\ CategorySerializer_to_representation fuel' cats y = Some j').
  { intros x y Hxy. induction Hxy as [x y H|x y z H _ IH]; intros fuel j Hj.
    - destruct fuel as [|n]; [discriminate|].
      destruct (to_representation_child _ _ _ _ _ Hj H) as [j' Hj'].
      exists n, j'. split; [lia | exact Hj'].
    - destruct fuel as [|n]; [discriminate|].
      destruct (to_representation_child _ _ _ _ _ Hj H) as [j' Hj'].
      destruct (IH _ _ Hj') as (fuel' & j'' & Hlt & Hj'').
      exists fuel', j''. split; [lia | exact Hj'']. }
  assert (Hd : forall fuel,
            CategorySerializer_to_representation fuel cats d = None).
  { intros fuel. induction (lt_wf fuel) as [fuel _ IH].
    destruct (CategorySerializer_to_representation fuel cats d) as [j|] eqn:Hj;
      [|reflexivity].
    destruct (Hstep _ _ Hdd _ _ Hj) as (fuel' & j' & Hlt & Hj').
    rewrite (IH fuel' Hlt) in Hj'. discriminate. }
  intros fuel.
  destruct (CategorySerializer_to_representation fuel cats c) as [j|] eqn:Hj;
    [|reflexivity].
  apply rtc_tc in Hcd as [->|Htc]; [rewrite Hd in Hj; discriminate|].
  destruct (Hstep _ _ Htc _ _ Hj) as (fuel' & j' & _ & Hj').
  rewrite Hd in Hj'. discriminate.
Qed.

Lemma X10_witness :
  CategorySerializer_to_representation 100 cyclic_cats
    (mkCategory 1 "a" "a" (Some 2)) = None.
Proof.
  apply (X10_cycle_below_never_returns cyclic_cats
           (mkCategory 1 "a" "a" (Some 2)) (mkCategory 1 "a" "a" (Some 2))).
  - apply rtc_refl.
  - apply (tc_l _ _ (mkCategory 2 "b" "b" (Some 1))); [|apply tc_once];
      unfold has_child; apply (bool_decide_unpack _); vm_compute; exact I.
Defined.

(** ** Keys that identify a row *)

Lemma filter_unique_key {A B} `{EqDecision B} (key : A -> B) (l : list A) x :
  NoDup (map key l) -> x ∈ l -> filter (fun y => key y = key x) l = [x].
Proof.
  induction l as [|y l IH]; intros Hnd Hx; [inversion Hx|].
  simpl in Hnd. apply NoDup_cons in Hnd as [Hy Hnd]. rewrite filter_cons.
  apply elem_of_cons in Hx as [->|Hx].
  - rewrite decide_True by reflexivity. f_equal. apply filter_none.
    intros z Hz Hkey. apply Hy. rewrite <- Hkey.
    apply list_elem_of_fmap. exists z. auto.
  - rewrite decide_False.
    + apply IH; assumption.
    + intros Hkey. apply Hy. rewrite Hkey.
      apply list_elem_of_fmap. exists x. auto.
Qed.

(** ** CategoryFlatSerializer against CategorySerializer *)

Lemma category_parent_child cats c ch :
  NoDup (map cat_pk cats) -> c ∈ cats -> parent ch = Some (cat_pk c) ->
  category_parent cats ch = Some c.
Proof.
  intros Hnd Hc Hp. unfold category_parent. rewrite Hp.
  rewrite (filter_unique_key cat_pk cats c Hnd Hc). reflexivity.
Qed.

Lemma category_parent_inv cats ch p :
  category_parent cats ch = Some p -> p ∈ cats /\ parent ch = Some (cat_pk p).
Proof.
  unfold category_parent. destruct (parent ch) as [q|]; [|discriminate].
  intros Hhd. apply head_Some_elem_of in Hhd.
  apply list_elem_of_filter in Hhd as [-> Hin]. auto.
Qed.

(** On a table with unique primary keys and slugs, the children of [c] in
    the table are the rows to which the flat serializer gives the parent
    slug of [c]. *)
Lemma flat_parent_children_of (cats : list Category) (c ch : Category) :
  NoDup (map cat_pk cats) ->
  NoDup (map slug cats) ->
  c ∈ cats ->
  ch ∈ cats ->
  ch ∈ children_of cats c
  <-> json_get "parent" (CategoryFlatSerializer_to_representation cats ch)
      = Some (JStr (slug c)).
Proof.
  intros Hpk Hslug Hc Hch. unfold children_of.
  rewrite list_elem_of_filter. split.
  - intros [Hp _]. unfold CategoryFlatSerializer_to_representation.
    rewrite (category_parent_child cats c ch Hpk Hc Hp). reflexivity.
  - unfold CategoryFlatSerializer_to_representation. simpl.
    destruct (category_parent cats ch) as [p|] eqn:Hparent; [|discriminate].
    intros [= Hs]. apply category_parent_inv in Hparent as [Hin Hp].
    split; [|exact Hch]. rewrite Hp. do 2 f_equal.
    assert (Hsingle : p ∈ filter (fun y => slug y = slug c) cats)
      by (apply list_elem_of_filter; auto).
    rewrite (filter_unique_key slug cats c Hslug Hc) in Hsingle.
    apply list_elem_of_singleton in Hsingle. congruence.
Qed.

(** The slugs of the objects the tree serializer lists are the slugs of
    the rows it was run on. *)
Lemma serialized_items_slugs cats n (l : list Category) (items : list json) s :
  Forall2 (fun ch item =>
             CategorySerializer_to_representation n cats ch = Some item)
          l items ->
  (exists item, item ∈ items /\ json_get "slug" item = Some (JStr s))
  <-> exists ch, ch ∈ l /\ slug ch = s.
Proof.
  induction 1 as [|ch item l items Hch _ IH].
  - split; [intros (item & Hin & _) | intros (ch & Hin & _)]; inversion Hin.
  - apply to_representation_inv in Hch as (n' & sub & _ & _ & ->).
    split.
    + intros (item & Hin & Hs). apply elem_of_cons in Hin as [->|Hin].
      * exists ch. split; [left|]. simpl in Hs. congruence.
      * destruct (proj1 IH) as (ch' & Hin' & Hs'); [eauto|].
        exists ch'. split; [right; exact Hin' | exact Hs'].
    + intros (ch' & Hin & Hs). apply elem_of_cons in Hin as [->|Hin].
      * eexists. split; [left|]. simpl. rewrite Hs. reflexivity.
      * destruct (proj2 IH) as (item & Hin' & Hs'); [eauto|].
        exists item. split; [right; exact Hin' | exact Hs'].
Qed.

(** X11: the two category serializers agree on the hierarchy.  On a table
    whose primary keys and slugs are unique, whenever the tree serializer
    returns for [c], the objects under ['children'] in its output carry
    the slugs of exactly those rows to which the flat serializer gives the
    parent slug of [c]. *)
Theorem X11_tree_children_match_flat_parent
    (cats : list Category) (c ch : Category) (fuel : nat) (j : json) :
  NoDup (map cat_pk cats) ->
  NoDup (map slug cats) ->
  c ∈ cats ->
  ch ∈ cats ->
  CategorySerializer_to_representation fuel cats c = Some j ->
  (exists item, item ∈ json_children j
                /\ json_get "slug" item = Some (JStr (slug ch)))
  <-> json_get "parent" (CategoryFlatSerializer_to_representation cats ch)
      = Some (JStr (slug c)).
Proof.
  intros Hpk Hslug Hc Hch Hj.
  apply to_representation_inv in Hj as (n & items & _ & Hm & ->).
  apply mapM_Some in Hm.
  change (json_children
            (JObj [("name", JStr (name c)); ("slug", JStr (slug c));
                   ("children", JList items)])) with items.
  rewrite (serialized_items_slugs _ _ _ _ (slug ch) Hm).
  rewrite <- (flat_parent_children_of cats c ch Hpk Hslug Hc Hch).
  split; [|intros Hin; exists ch; auto].
  intros (ch' & Hin & Hs).
  assert (Hcats : ch' ∈ cats)
    by (unfold children_of in Hin; apply list_elem_of_filter in Hin; tauto).
  assert (Hsingle : ch' ∈ filter (fun y => slug y = slug ch) cats)
    by (apply list_elem_of_filter; auto).
  rewrite (filter_unique_key slug cats ch Hslug Hch) in Hsingle.
  apply list_elem_of_singleton in Hsingle. subst ch'. exact Hin.
Qed.

Lemma X11_witness :
  (exists item,
     item ∈ json_children
              (JObj [("name", JStr "Roots"); ("slug", JStr "roots");
                     ("children", JList [
                        JObj [("name", JStr "Carrots"); ("slug", JStr "carrots");
                              ("children", JList [])]])])
     /\ json_get "slug" item = Some (JStr "carrots"))
  <-> json_get "parent"
        (CategoryFlatSerializer_to_representation sample_cats
           (mkCategory 4 "Carrots" "carrots" (Some 2)))
      = Some (JStr "roots").
Proof.
  apply (X11_tree_children_match_flat_parent sample_cats
           (mkCategory 2 "Roots" "roots" (Some 1))
           (mkCategory 4 "Carrots" "carrots" (Some 2)) 2);
    [apply (bool_decide_unpack _); vm_compute; exact I
    |apply (bool_decide_unpack _); vm_compute; exact I
    |apply (bool_decide_unpack _); vm_compute; exact I
    |apply (bool_decide_unpack _); vm_compute; exact I
    |reflexivity].
Defined.

Example flat_root_has_no_parent :
  CategoryFlatSerializer_to_representation cyclic_cats
    (mkCategory 7 "top" "top" None)
  = JObj [("name", JStr "top"); ("slug", JStr "top"); ("parent", JNull)].
Proof. reflexivity. Qed.

Example flat_serializes_on_a_cycle :
  CategoryFlatSerializer_to_representation cyclic_cats
    (mkCategory 1 "a" "a" (Some 2))
  = JObj [("name", JStr "a"); ("slug", JStr "a"); ("parent", JStr "b")].
Proof. reflexivity. Qed.

(** ** The category field of a product *)

(** X12: on a table with unique slugs, writing a category of the table as
    its slug and reading the slug back gives the same category. *)
Theorem X12_category_slug_round_trip (cats : list Category) (c : Category) :
  NoDup (map slug cats) ->
  c ∈ cats ->
  category_to_representation c = JStr (slug c)
  /\ category_to_internal_value cats (slug c) = Ok c.
Proof.
  intros Hnd Hc. split; [reflexivity|]. unfold category_to_internal_value.
  rewrite (filter_unique_key slug cats c Hnd Hc). reflexivity.
Qed.

Lemma X12_witness :
  category_to_representation (mkCategory 4 "Carrots" "carrots" (Some 2))
  = JStr "carrots"
  /\ category_to_internal_value sample_cats "carrots"
     = Ok (mkCategory 4 "Carrots" "carrots" (Some 2)).
Proof.
  apply (X12_category_slug_round_trip sample_cats
           (mkCategory 4 "Carrots" "carrots" (Some 2)));
    apply (bool_decide_unpack _); vm_compute; exact I.
Defined.

(** X13: the category field accepts only categories of the table, under
    their own slug, and it answers a slug with the validation error exactly
    when no category has that slug; a slug that several categories share is
    neither accepted nor a validation error. *)
Theorem X13_category_slug_lookup (cats : list Category) (data : string) :
  (forall c, category_to_internal_value cats data = Ok c ->
             c ∈ cats /\ slug c = data)
  /\ (category_to_internal_value cats data
        = Raise (ValidationError "does_not_exist")
      <-> forall c, c ∈ cats -> slug c <> data)
  /\ (forall c1 c2 rest,
        filter (fun c => slug c = data) cats = c1 :: c2 :: rest ->
        category_to_internal_value cats data
        = Raise (StorageError "MultipleObjectsReturned")).
Proof.
  unfold category_to_internal_value.
  destruct (filter (fun c => slug c = data) cats) as [|c1 [|c2 rest]] eqn:Hf.
  - split; [discriminate|]. split; [|discriminate].
    split; [|reflexivity]. intros _ c Hc Hs.
    assert (Hin : c ∈ filter (fun c => slug c = data) cats)
      by (apply list_elem_of_filter; auto).
    rewrite Hf in Hin. inversion Hin.
  - assert (Hin : c1 ∈ filter (fun c => slug c = data) cats)
      by (rewrite Hf; left).
    apply list_elem_of_filter in Hin as [Hs Hin].
    split; [intros c [= <-]; auto|]. split; [|discriminate].
    split; [discriminate|]. intros Hall. exfalso. exact (Hall c1 Hin Hs).
  - assert (Hin : c1 ∈ filter (fun c => slug c = data) cats)
      by (rewrite Hf; left).
    apply list_elem_of_filter in Hin as [Hs Hin].
    split; [discriminate|]. split; [|reflexivity].
    split; [discriminate|]. intros Hall. exfalso. exact (Hall c1 Hin Hs).
Qed.

(** ** Owner attachment and is_self together *)

Lemma objects_create_frame accepts model data db r db' other :
  objects_create accepts model data db = (Ok r, db') ->
  other <> model ->
  rows_of other db' = rows_of other db.
Proof.
  unfold objects_create. destruct (accepts model data db); [|discriminate].
  intros [= <- <-] Hne. unfold rows_of. rewrite lookup_insert_ne by congruence.
  reflexivity.
Qed.

Lemma actor_profiles_frame a db db' :
  rows_of "StoreProfile" db' = rows_of "StoreProfile" db ->
  actor_profiles a db' = actor_profiles a db.
Proof.
  intros Hrows. destruct a as [| |u]; simpl; try reflexivity.
  unfold profile_rows. rewrite Hrows. reflexivity.
Qed.

(** X14: a product is always the creator's own.  After a successful create
    through the product serializer, the stored seller is the actor's
    profile, the table of profiles is as it was, and serializing that
    profile in the same request marks it [is_self], as the nested seller of
    the product listing shows it. *)
Theorem X14_created_product_seller_is_self
    (accepts : string -> gmap string value -> DB -> bool)
    (ctx : Context) (validated_data : gmap string value) (db db' : DB)
    (request : Request) (p r : Row) (rows : list Row)
    (profile_serializer : Serializer) :
  ctx !! "request" = Some request ->
  context profile_serializer = ctx ->
  actor_profiles (user request) db = p :: rows ->
  ProductNestedSerializer_create accepts
    (mkSerializer ProductNestedSerializer ctx) validated_data db = (Ok r, db') ->
  row_fields r !! "seller" = Some (profile_ref p)
  /\ rows_of "StoreProfile" db' = rows_of "StoreProfile" db
  /\ get_is_self profile_serializer p db' = Ok true.
Proof.
  intros Hreq Hctx Hp Hcreate.
  unfold ProductNestedSerializer_create in Hcreate.
  rewrite (SetOwnProfileMixin_create_delegates _ _ request "seller" p) in Hcreate;
    [|exact Hreq | reflexivity | apply (getattr_profile_some _ _ _ rows Hp)].
  change (ModelSerializer_create accepts
            (mkSerializer ProductNestedSerializer ctx)
            (<["seller" := profile_ref p]> validated_data) db)
    with (objects_create accepts "Product"
            (<["seller" := profile_ref p]> validated_data) db) in Hcreate.
  assert (Hframe : rows_of "StoreProfile" db' = rows_of "StoreProfile" db)
    by (apply (objects_create_frame _ _ _ _ _ _ _ Hcreate); discriminate).
  apply objects_create_ok in Hcreate as [Hf _].
  split; [rewrite Hf; apply lookup_insert_eq|]. split; [exact Hframe|].
  unfold get_is_self. rewrite Hctx, Hreq.
  rewrite (getattr_profile_some _ _ p rows)
    by (rewrite (actor_profiles_frame _ _ _ Hframe); exact Hp).
  simpl. rewrite bool_decide_eq_true_2 by reflexivity. reflexivity.
Qed.

Lemma X14_witness :
  row_fields (mkRow 1 {[ "title" := VStr "carrots";
                         "seller" := VRef "StoreProfile" 3 ]}) !! "seller"
  = Some (VRef "StoreProfile" 3)
  /\ rows_of "StoreProfile"
       (<["Product" := [mkRow 1 {[ "title" := VStr "carrots";
                                   "seller" := VRef "StoreProfile" 3 ]}]]>
          sample_db)
     = rows_of "StoreProfile" sample_db
  /\ get_is_self (mkSerializer StoreProfileSerializer (context_of (User 7)))
       (mkRow 3 {[ "user" := VRef "User" 7 ]})
       (<["Product" := [mkRow 1 {[ "title" := VStr "carrots";
                                   "seller" := VRef "StoreProfile" 3 ]}]]>
          sample_db)
     = Ok true.
Proof.
  apply (X14_created_product_seller_is_self accept_all (context_of (User 7))
           product_payload sample_db _ (mkRequest (User 7))
           (mkRow 3 {[ "user" := VRef "User" 7 ]}) _ []
           (mkSerializer StoreProfileSerializer (context_of (User 7))));
    [reflexivity | reflexivity | reflexivity | vm_compute; reflexivity].
Defined.
